(** * The iSCSI login probe: codec and scenario runner

  A shallow embedding of [test-with-python-client.py]: the login-request
  encoder [create_login_pdu], the login-response decoder
  [parse_login_response], the three scenario functions and [main],
  together with the properties of the codec and of the runner. *)

From Equations Require Import Equations.
From Stdlib Require Import String Ascii.
From Stdlib Require Import Strings.Byte.
From Stdlib Require Import ZArith List Lia Bool DecimalString.
Import ListNotations.

Local Open Scope Z_scope.

(** ** The pieces of the Python runtime the program relies on *)

Module Py.

(** Exception classes the program can meet.  All of them derive from
    [Exception]; [SystemExit] (below) does not. *)
Inductive exc_class :=
| OSError | TimeoutError | ConnectionRefusedError | ConnectionResetError
| OverflowError | TypeError | ValueError | IndexError
| UnicodeEncodeError | struct_error.

Inductive exn :=
| Exception (cls : exc_class) (text : string)
| SystemExit (code : Z).

(** [isinstance(e, Exception)], the test of an [except Exception] clause. *)
Definition is_Exception (e : exn) : bool :=
  match e with
  | Exception _ _ => true
  | SystemExit _ => false
  end.

(** [str(e)], as printed by [f"{e}"]. *)
Definition exn_text (e : exn) : string :=
  match e with
  | Exception _ text => text
  | SystemExit code => NilZero.string_of_int (Z.to_int code)
  end.

(** A computation that returns a value or raises. *)
Inductive result (A : Type) :=
| Ok (a : A)
| Raise (e : exn).
Arguments Ok {A} a.
Arguments Raise {A} e.

Definition bind {A B} (r : result A) (k : A -> result B) : result B :=
  match r with
  | Ok a => k a
  | Raise e => Raise e
  end.

(** A [bytes] or [bytearray] object: every item is in [range(256)]. *)
Definition bytes := list byte.

(** A [str]: its code points. *)
Definition str := list Z.

(** An item of a bytes object read as an [int]. *)
Definition byte_to_Z (b : byte) : Z := Z.of_N (Byte.to_N b).

(** An [int] stored as an item: only [range(256)] fits. *)
Definition byte_of_Z (z : Z) : option byte :=
  if z <? 0 then None else Byte.of_N (Z.to_N z).

(** The low eight bits of an [int], as an item. *)
Definition b8 (z : Z) : byte :=
  match Byte.of_N (Z.to_N (Z.land z 0xFF)) with
  | Some b => b
  | None => x00
  end.

(** [data[i]] for a non-negative index. *)
Definition getitem (data : bytes) (i : nat) : result Z :=
  match nth_error data i with
  | Some b => Ok (byte_to_Z b)
  | None => Raise (Exception IndexError "index out of range")
  end.

(** [buf[i] = v] on a bytearray, for a non-negative index. *)
Definition setitem (buf : bytes) (i : nat) (v : Z) : result bytes :=
  if (i <? length buf)%nat then
    match byte_of_Z v with
    | Some b => Ok (firstn i buf ++ b :: skipn (S i) buf)
    | None => Raise (Exception ValueError "byte must be in range(0, 256)")
    end
  else Raise (Exception IndexError "bytearray index out of range").

(** [buf[lo:hi] = v] on a bytearray: the slice is replaced by [v], of
    whatever length [v] is. *)
Definition setslice (buf : bytes) (lo hi : nat) (v : bytes) : bytes :=
  firstn lo buf ++ v ++ skipn (Nat.max lo hi) buf.

(** [struct.pack_into('>H', buf, offset, v)]. *)
Definition pack_into_H (buf : bytes) (offset : nat) (v : Z) : result bytes :=
  if (v <? 0) || (0xFFFF <? v) then
    Raise (Exception struct_error "'H' format requires 0 <= number <= 65535")
  else if (length buf <? offset + 2)%nat then
    Raise (Exception struct_error "pack_into requires a buffer of at least 2 bytes")
  else
    Ok (firstn offset buf
          ++ [b8 (Z.shiftr v 8); b8 v]
          ++ skipn (offset + 2) buf).

(** [struct.pack_into('>I', buf, offset, v)]. *)
Definition pack_into_I (buf : bytes) (offset : nat) (v : Z) : result bytes :=
  if (v <? 0) || (0xFFFFFFFF <? v) then
    Raise (Exception struct_error "'I' format requires 0 <= number <= 4294967295")
  else if (length buf <? offset + 4)%nat then
    Raise (Exception struct_error "pack_into requires a buffer of at least 4 bytes")
  else
    Ok (firstn offset buf
          ++ [b8 (Z.shiftr v 24); b8 (Z.shiftr v 16); b8 (Z.shiftr v 8); b8 v]
          ++ skipn (offset + 4) buf).

(** The UTF-8 encoding of one code point.  Surrogates are refused, as the
    strict error handler of [str.encode] does. *)
Definition encode_char (c : Z) : result bytes :=
  if (c <? 0) || (0x10FFFF <? c) then
    Raise (Exception ValueError "not a code point")
  else if c <? 0x80 then
    Ok [b8 c]
  else if c <? 0x800 then
    Ok [b8 (Z.lor 0xC0 (Z.shiftr c 6));
        b8 (Z.lor 0x80 (Z.land c 0x3F))]
  else if c <? 0x10000 then
    if (0xD800 <=? c) && (c <=? 0xDFFF) then
      Raise (Exception UnicodeEncodeError "surrogates not allowed")
    else
      Ok [b8 (Z.lor 0xE0 (Z.shiftr c 12));
          b8 (Z.lor 0x80 (Z.land (Z.shiftr c 6) 0x3F));
          b8 (Z.lor 0x80 (Z.land c 0x3F))]
  else
    Ok [b8 (Z.lor 0xF0 (Z.shiftr c 18));
        b8 (Z.lor 0x80 (Z.land (Z.shiftr c 12) 0x3F));
        b8 (Z.lor 0x80 (Z.land (Z.shiftr c 6) 0x3F));
        b8 (Z.lor 0x80 (Z.land c 0x3F))].

(** [s.encode('utf-8')]. *)
Fixpoint encode_utf8 (s : str) : result bytes :=
  match s with
  | [] => Ok []
  | c :: s' =>
      bind (encode_char c) (fun bs =>
      bind (encode_utf8 s') (fun rest =>
      Ok (bs ++ rest)))
  end.

(** A Unicode scalar value: a code point that is not a surrogate. *)
Definition scalar_value (c : Z) : bool :=
  ((0 <=? c) && (c <? 0xD800)) || ((0xE000 <=? c) && (c <=? 0x10FFFF)).

(** The strings [encode('utf-8')] accepts. *)
Definition encodable (s : str) : bool := forallb scalar_value s.

(** A string literal of the program, as a [str]. *)
Definition lit (s : string) : str :=
  map (fun a => Z.of_N (N_of_ascii a)) (list_ascii_of_string s).

End Py.

Import Py.

Declare Scope result_scope.
Delimit Scope result_scope with result.
Notation "x <- c ;; k" := (Py.bind c (fun x => k))
(at level 61, c at next level, right associativity) : result_scope.

(** ** The message codec *)

Module Codec.

Local Open Scope result_scope.

(** The padding loop of [create_login_pdu]:
    [while len(param_bytes) % 4 != 0: param_bytes += b'\0']. *)
Local Arguments Nat.modulo : simpl never.
Local Arguments Nat.sub : simpl never.

Equations? pad_loop (param_bytes : bytes) : bytes
  by wf ((4 - length param_bytes mod 4) mod 4)%nat lt :=
  pad_loop param_bytes with Nat.eq_dec (length param_bytes mod 4) 0 => {
    | left _ => param_bytes
    | right _ => pad_loop (param_bytes ++ [x00]) }.
Proof.
  rewrite length_app. simpl length.
  pose proof (Nat.mod_upper_bound (length param_bytes) 4 ltac:(lia)) as Hb.
  pose proof (Nat.div_mod_eq (length param_bytes) 4) as Hd.
  set (m := (length param_bytes mod 4)%nat) in *.
  set (q := (length param_bytes / 4)%nat) in *.
  destruct (Nat.eq_dec m 3) as [E3 | N3].
  - assert (Hz : ((length param_bytes + 1) mod 4 = 0)%nat).
    { symmetry. apply (Nat.mod_unique _ 4 (S q)); lia. }
    rewrite Hz, E3. vm_compute. lia.
  - assert (Hz : ((length param_bytes + 1) mod 4 = S m)%nat).
    { symmetry. apply (Nat.mod_unique _ 4 q); lia. }
    rewrite Hz.
    rewrite (Nat.mod_small (4 - S m) 4) by lia.
    rewrite (Nat.mod_small (4 - m) 4) by lia.
    lia.
Qed.

(** [create_login_pdu(isid, tsih, cid, cmd_sn, exp_stat_sn, params)] *)
Definition create_login_pdu (isid : bytes) (tsih cid cmd_sn exp_stat_sn : Z)
           (params : str) : result bytes :=
  let opcode := 0x03 in
  let flags := 0x83 in
  param_bytes <- encode_utf8 params ;;
  let param_bytes := pad_loop param_bytes in
  let data_len := Z.of_nat (length param_bytes) in
  let bhs := repeat x00 48 in
  bhs <- setitem bhs 0 (Z.lor opcode 0x40) ;;
  bhs <- setitem bhs 1 flags ;;
  bhs <- setitem bhs 4 0 ;;
  bhs <- setitem bhs 5 (Z.land (Z.shiftr data_len 16) 0xFF) ;;
  bhs <- setitem bhs 6 (Z.land (Z.shiftr data_len 8) 0xFF) ;;
  bhs <- setitem bhs 7 (Z.land data_len 0xFF) ;;
  let bhs := setslice bhs 8 14 isid in
  bhs <- pack_into_H bhs 14 tsih ;;
  bhs <- pack_into_I bhs 16 cmd_sn ;;
  bhs <- pack_into_H bhs 20 cid ;;
  bhs <- pack_into_I bhs 24 cmd_sn ;;
  bhs <- pack_into_I bhs 28 exp_stat_sn ;;
  Ok (bhs ++ param_bytes).

(** The dictionary [parse_login_response] returns. *)
Record login_response := {
  opcode : Z;
  status_class : Z;
  status_detail : Z;
  status_code : Z
}.

(** [parse_login_response(data)]; [None] is Python's [None]. *)
Definition parse_login_response (data : bytes)
  : result (option login_response) :=
  if Z.of_nat (length data) <? 48 then Ok None
  else
    d0 <- getitem data 0 ;;
    let opcode := Z.land d0 0x3F in
    if negb (opcode =? 0x23) then Ok None
    else
      status_class <- getitem data 36 ;;
      status_detail <- getitem data 37 ;;
      Ok (Some {| opcode := opcode;
                  status_class := status_class;
                  status_detail := status_detail;
                  status_code :=
                    Z.lor (Z.shiftl status_class 8) status_detail |}).

End Codec.

Import Codec.


(** ** Reading a wire message back *)

Module Wire.

(** [data[lo:hi]] *)
Definition slice (data : bytes) (lo hi : nat) : bytes :=
  firstn (hi - lo) (skipn lo data).

(** The unsigned integer a byte string denotes, most significant byte
    first. *)
Definition be_value (bs : bytes) : Z :=
  fold_left (fun acc b => acc * 256 + byte_to_Z b) bs 0.

(** The four big-endian bytes of a 32-bit value. *)
Definition be32 (v : Z) : bytes :=
  [b8 (Z.shiftr v 24); b8 (Z.shiftr v 16); b8 (Z.shiftr v 8); b8 v].

(** The two big-endian bytes of a 16-bit value. *)
Definition be16 (v : Z) : bytes := [b8 (Z.shiftr v 8); b8 v].

(** The request header as section 6 of the specification lays it out,
    for a payload of [data_len] bytes. *)
Definition spec_header (isid : bytes) (tsih cid cmd_sn exp_stat_sn : Z)
           (data_len : Z) : bytes :=
  [b8 (Z.lor 0x03 0x40); b8 0x83; x00; x00; x00;
   b8 (Z.shiftr data_len 16); b8 (Z.shiftr data_len 8); b8 data_len]
    ++ isid
    ++ be16 tsih
    ++ be32 cmd_sn
    ++ be16 cid ++ [x00; x00]
    ++ be32 cmd_sn
    ++ be32 exp_stat_sn
    ++ repeat x00 16.

(** The layout of a login request on the wire, as section 6 of the
    specification words it: a 48-byte header with the given fields at
    the given offsets, then the parameter text, then null padding up to
    a multiple of four bytes. *)
Definition login_request_layout (isid : bytes)
           (tsih cid cmd_sn exp_stat_sn : Z) (text pdu : bytes) : Prop :=
  exists (bhs : bytes) (pad : nat),
    pdu = bhs ++ text ++ repeat x00 pad
    /\ length bhs = 48%nat
    /\ (pad < 4)%nat
    /\ (length (text ++ repeat x00 pad) mod 4 = 0)%nat
    /\ getitem bhs 0 = Ok (Z.lor 0x03 0x40)
    /\ getitem bhs 1 = Ok 0x83
    /\ getitem bhs 4 = Ok 0
    /\ be_value (slice bhs 5 8)
       = Z.of_nat (length (text ++ repeat x00 pad)) mod 2 ^ 24
    /\ slice bhs 8 14 = isid
    /\ be_value (slice bhs 14 16) = tsih
    /\ be_value (slice bhs 16 20) = cmd_sn
    /\ be_value (slice bhs 20 22) = cid
    /\ be_value (slice bhs 24 28) = cmd_sn
    /\ be_value (slice bhs 28 32) = exp_stat_sn.

End Wire.

Import Wire.

(** ** The scenario runner *)

Declare Scope run_scope.
Delimit Scope run_scope with run.

Module Runner.

(** An exception a socket call raises: its class, derived from
    [Exception] as every [exc_class] is, and its text. *)
Definition failure : Type := exc_class * string.

(** What the endpoint does to one connection: the outcome of each call
    the program makes on the connection's socket.  [connect], [sendall]
    and [recv] may raise; creating a socket, setting its timeout and
    closing it are taken to succeed. *)
Record peer := {
  connect_outcome : str -> Z -> option failure;
  sendall_outcome : bytes -> option failure;
  recv_outcome : nat -> failure + bytes
}.

(** The socket calls of a run, in order. *)
Inductive event :=
| ev_socket (fd : nat)
| ev_settimeout (fd : nat) (seconds : Z)
| ev_connect (fd : nat) (host : str) (port : Z)
| ev_sendall (fd : nat) (data : bytes)
| ev_recv (fd : nat) (bufsize : nat)
| ev_close (fd : nat).

(** An [int] rendered by a format spec. *)
Inductive rendered :=
| hex04 (v : Z).

(** The lines the program prints. *)
Inductive line :=
| line_test (banner : string)
| line_pass (name : string) (code : rendered)
| line_fail_expected (expected : string) (got : rendered)
| line_fail_exn (text : string)
| line_usage (prog : str)
| line_example (prog : str)
| line_rule
| line_title
| line_target (host : str) (port : Z)
| line_blank
| line_results (passed total : Z).

(** The world the program runs in.  [peers w fd] is how the endpoint
    treats the connection made on socket [fd]; sockets are numbered in the
    order they are created; [open_fds] are the sockets not yet closed. *)
Record world := {
  peers : nat -> peer;
  next_fd : nat;
  open_fds : list nat;
  events : list event;
  stdout : list line
}.

(** A statement of the program: it changes the world and returns a value
    or raises. *)
Definition M (A : Type) : Type := world -> result A * world.

Definition ret {A} (a : A) : M A := fun w => (Ok a, w).

Definition bind {A B} (c : M A) (k : A -> M B) : M B :=
  fun w =>
    match c w with
    | (Ok a, w') => k a w'
    | (Raise e, w') => (Raise e, w')
    end.

(** A pure computation used as a statement. *)
Definition lift {A} (r : result A) : M A := fun w => (r, w).

Notation "x <- c ;; k" := (bind c (fun x => k))
  (at level 61, c at next level, right associativity) : run_scope.
Notation "c ;;; k" := (bind c (fun _ => k))
  (at level 61, right associativity) : run_scope.

Local Open Scope run_scope.

(** [try: body / except Exception as e: handler(e) / finally: final] *)
Definition try_except_finally {A} (body : M A) (handler : exn -> M A)
           (final : M unit) : M A :=
  fun w =>
    let '(r, w1) :=
      match body w with
      | (Raise e, w1) =>
          if is_Exception e then handler e w1 else (Raise e, w1)
      | (Ok a, w1) => (Ok a, w1)
      end in
    match final w1 with
    | (Ok _, w2) => (r, w2)
    | (Raise e, w2) => (Raise e, w2)
    end.

Definition log (e : event) (w : world) : world :=
  {| peers := peers w; next_fd := next_fd w; open_fds := open_fds w;
     events := events w ++ [e]; stdout := stdout w |}.

(** [print(...)] *)
Definition print (l : line) : M unit :=
  fun w =>
    (Ok tt,
     {| peers := peers w; next_fd := next_fd w; open_fds := open_fds w;
        events := events w; stdout := stdout w ++ [l] |}).

(** [socket.socket(socket.AF_INET, socket.SOCK_STREAM)] *)
Definition socket_socket : M nat :=
  fun w =>
    (Ok (next_fd w),
     {| peers := peers w; next_fd := S (next_fd w);
        open_fds := next_fd w :: open_fds w;
        events := events w ++ [ev_socket (next_fd w)];
        stdout := stdout w |}).

(** [sock.settimeout(seconds)] *)
Definition settimeout (sock : nat) (seconds : Z) : M unit :=
  fun w => (Ok tt, log (ev_settimeout sock seconds) w).

Definition raise_failure {A} (f : failure) : result A :=
  Raise (Exception (fst f) (snd f)).

(** [sock.connect((host, port))] *)
Definition connect (sock : nat) (host : str) (port : Z) : M unit :=
  fun w =>
    (match connect_outcome (peers w sock) host port with
     | Some f => raise_failure f
     | None => Ok tt
     end,
     log (ev_connect sock host port) w).

(** [sock.sendall(data)] *)
Definition sendall (sock : nat) (data : bytes) : M unit :=
  fun w =>
    (match sendall_outcome (peers w sock) data with
     | Some f => raise_failure f
     | None => Ok tt
     end,
     log (ev_sendall sock data) w).

(** [sock.recv(bufsize)]: at most [bufsize] bytes. *)
Definition recv (sock : nat) (bufsize : nat) : M bytes :=
  fun w =>
    (match recv_outcome (peers w sock) bufsize with
     | inl f => raise_failure f
     | inr data => Ok (firstn bufsize data)
     end,
     log (ev_recv sock bufsize) w).

(** [sock.close()] *)
Definition close (sock : nat) : M unit :=
  fun w =>
    (Ok tt,
     {| peers := peers w; next_fd := next_fd w;
        open_fds := List.remove Nat.eq_dec sock (open_fds w);
        events := events w ++ [ev_close sock];
        stdout := stdout w |}).

(** [sys.exit(code)] *)
Definition sys_exit {A} (code : Z) : M A :=
  fun w => (Raise (SystemExit code), w).

(** [result['status_code']], [result] being what
    [parse_login_response] returned. *)
Definition item_status_code (result : option login_response)
  : Py.result Z :=
  match result with
  | Some r => Ok (status_code r)
  | None =>
      Raise (Exception TypeError "'NoneType' object is not subscriptable")
  end.

(** [format(v, spec)] for an [int], for the two format specs that occur
    in the program: [04x], and the text [04x if result else 0:04x], which
    is no format spec. *)
Definition format (v : Z) (spec : string) : result rendered :=
  if String.eqb spec "04x" then Ok (hex04 v)
  else Raise (Exception ValueError "Invalid format specifier").

(** [result and result['status_code'] == expected] *)
Definition result_and_code_is (result : option login_response)
           (expected : Z) : Py.result bool :=
  match result with
  | None => Ok false
  | Some _ =>
      (code <- item_status_code result ;; Ok (code =? expected))%result
  end.

(** [test_target_not_found(host, port)] *)
Definition test_target_not_found (host : str) (port : Z) : M bool :=
  print (line_test "Test 1: TARGET_NOT_FOUND (0x0203)...") ;;;
  sock <- socket_socket ;;
  settimeout sock 5 ;;;
  try_except_finally
    (connect sock host port ;;;
     let params := lit "InitiatorName=iqn.2025-12.test:python-client" ++ [0] in
     let params := params ++ lit "TargetName=iqn.wrong.target.name" ++ [0] in
     let params := params ++ lit "AuthMethod=None" ++ [0] in
     let isid := [x01; x02; x03; x04; x05; x06] in
     pdu <- lift (create_login_pdu isid 0 0 0 0 params) ;;
     sendall sock pdu ;;;
     response <- recv sock 48 ;;
     result <- lift (parse_login_response response) ;;
     cond <- lift (result_and_code_is result 0x0203) ;;
     if cond then
       code <- lift (item_status_code result) ;;
       got <- lift (format code "04x") ;;
       print (line_pass "TARGET_NOT_FOUND" got) ;;;
       ret true
     else
       code <- lift (item_status_code result) ;;
       got <- lift (format code "04x if result else 0:04x") ;;
       print (line_fail_expected "0x0203" got) ;;;
       ret false)
    (fun e => print (line_fail_exn (exn_text e)) ;;; ret false)
    (close sock).

(** [test_missing_parameter(host, port)] *)
Definition test_missing_parameter (host : str) (port : Z) : M bool :=
  print (line_test "Test 2: MISSING_PARAMETER (0x0207)...") ;;;
  sock <- socket_socket ;;
  settimeout sock 5 ;;;
  try_except_finally
    (connect sock host port ;;;
     let params := lit "TargetName=iqn.2025-12.local:storage.memory-disk" ++ [0] in
     let params := params ++ lit "AuthMethod=None" ++ [0] in
     let isid := [x01; x02; x03; x04; x05; x07] in
     pdu <- lift (create_login_pdu isid 0 0 0 0 params) ;;
     sendall sock pdu ;;;
     response <- recv sock 48 ;;
     result <- lift (parse_login_response response) ;;
     cond <- lift (result_and_code_is result 0x0207) ;;
     if cond then
       code <- lift (item_status_code result) ;;
       got <- lift (format code "04x") ;;
       print (line_pass "MISSING_PARAMETER" got) ;;;
       ret true
     else
       code <- lift (item_status_code result) ;;
       got <- lift (format code "04x if result else 0:04x") ;;
       print (line_fail_expected "0x0207" got) ;;;
       ret false)
    (fun e => print (line_fail_exn (exn_text e)) ;;; ret false)
    (close sock).

(** [test_successful_login(host, port)] *)
Definition test_successful_login (host : str) (port : Z) : M bool :=
  print (line_test "Test 3: SUCCESS (0x0000)...") ;;;
  sock <- socket_socket ;;
  settimeout sock 5 ;;;
  try_except_finally
    (connect sock host port ;;;
     let params := lit "InitiatorName=iqn.2025-12.test:python-client" ++ [0] in
     let params := params ++ lit "TargetName=iqn.2025-12.local:storage.memory-disk" ++ [0] in
     let params := params ++ lit "AuthMethod=None" ++ [0] in
     let isid := [x01; x02; x03; x04; x05; x08] in
     pdu <- lift (create_login_pdu isid 0 0 0 0 params) ;;
     sendall sock pdu ;;;
     response <- recv sock 1024 ;;
     result <- lift (parse_login_response response) ;;
     cond <- lift (result_and_code_is result 0x0000) ;;
     if cond then
       code <- lift (item_status_code result) ;;
       got <- lift (format code "04x") ;;
       print (line_pass "SUCCESS" got) ;;;
       ret true
     else
       code <- lift (match result with
                     | Some _ => item_status_code result
                     | None => Ok 0
                     end) ;;
       got <- lift (format code "04x") ;;
       print (line_fail_expected "0x0000" got) ;;;
       ret false)
    (fun e => print (line_fail_exn (exn_text e)) ;;; ret false)
    (close sock).

(** [sum(results)] *)
Definition sum (results : list bool) : Z :=
  fold_left (fun acc (b : bool) => acc + (if b then 1 else 0)) results 0.

(** [all(results)] *)
Definition all (results : list bool) : bool := forallb (fun b => b) results.

Section Main.

(** The built-in [int] applied to a [str]. *)
Variable int : str -> result Z.

(** [main()], [argv] being [sys.argv]. *)
Definition main (argv : list str) : M unit :=
  if negb (length argv =? 3)%nat then
    print (line_usage (nth 0 argv [])) ;;;
    print (line_example (nth 0 argv [])) ;;;
    sys_exit 1
  else
    let host := nth 1 argv [] in
    port <- lift (int (nth 2 argv [])) ;;
    print line_rule ;;;
    print line_title ;;;
    print line_rule ;;;
    print (line_target host port) ;;;
    print line_blank ;;;
    let results := [] in
    r <- test_successful_login host port ;;
    let results := results ++ [r] in
    r <- test_target_not_found host port ;;
    let results := results ++ [r] in
    r <- test_missing_parameter host port ;;
    let results := results ++ [r] in
    print line_blank ;;;
    print line_rule ;;;
    print (line_results (sum results) (Z.of_nat (length results))) ;;;
    print line_rule ;;;
    sys_exit (if all results then 0 else 1).

(** The exit status of the interpreter once [main()] has returned or
    raised. *)
Definition exit_status (r : result unit) : Z :=
  match r with
  | Ok _ => 0
  | Raise (SystemExit code) => code
  | Raise (Exception _ _) => 1
  end.

End Main.

(** The events a statement added to the log. *)
Definition events_since (w w' : world) : list event :=
  skipn (length (events w)) (events w').

(** Whether the socket call an event records raised. *)
Definition call_raised (w : world) (e : event) : bool :=
  match e with
  | ev_connect fd host port =>
      match connect_outcome (peers w fd) host port with
      | Some _ => true
      | None => false
      end
  | ev_sendall fd data =>
      match sendall_outcome (peers w fd) data with
      | Some _ => true
      | None => false
      end
  | ev_recv fd bufsize =>
      match recv_outcome (peers w fd) bufsize with
      | inl _ => true
      | inr _ => false
      end
  | _ => false
  end.

(** Events that record the creation of a socket. *)
Definition is_ev_socket (e : event) : bool :=
  match e with
  | ev_socket _ => true
  | _ => false
  end.

(** The socket an event is about. *)
Definition event_fd (e : event) : nat :=
  match e with
  | ev_socket fd | ev_settimeout fd _ | ev_connect fd _ _
  | ev_sendall fd _ | ev_recv fd _ | ev_close fd => fd
  end.

(** Calls that use a socket without creating or closing one. *)
Definition is_use (e : event) : bool :=
  match e with
  | ev_socket _ | ev_close _ => false
  | _ => true
  end.

(** [used_then_closed fd evs]: [evs] are calls on socket [fd] that use
    it, but for the last one, which closes it. *)
Fixpoint used_then_closed (fd : nat) (evs : list event) : bool :=
  match evs with
  | [] => false
  | [ev_close fd'] => (fd' =? fd)%nat
  | e :: evs' =>
      (event_fd e =? fd)%nat && is_use e && used_then_closed fd evs'
  end.

(** [scoped fd evs]: in [evs] socket [fd] is created first and closed
    last, and every call in between is a use of [fd]. *)
Definition scoped (fd : nat) (evs : list event) : bool :=
  match evs with
  | ev_socket fd' :: evs' => (fd' =? fd)%nat && used_then_closed fd evs'
  | _ => false
  end.

(** The world once a scenario has run in [w], having logged [new] and
    printed [out]: its socket is created and closed again. *)
Definition after (w : world) (new : list event) (out : list line) : world :=
  {| peers := peers w;
     next_fd := S (next_fd w);
     open_fds := List.remove Nat.eq_dec (next_fd w) (open_fds w);
     events := events w ++ new;
     stdout := stdout w ++ out |}.

(** [w'] is [w] with the lines [out] printed. *)
Definition prints (w w' : world) (out : list line) : Prop :=
  peers w' = peers w /\ next_fd w' = next_fd w
  /\ open_fds w' = open_fds w /\ events w' = events w
  /\ stdout w' = stdout w ++ out.

(** A statement that only prints, and raises nothing but instances of
    [Exception]. *)
Definition only_prints {A} (c : M A) : Prop :=
  forall w, exists r w' out,
    c w = (r, w') /\ prints w w' out
    /\ match r with
       | Ok _ => True
       | Raise e => is_Exception e = true
       end.

(** The handler all three scenario functions share. *)
Definition report_failure (e : exn) : M bool :=
  print (line_fail_exn (exn_text e)) ;;; ret false.

(** The shape the three scenario functions share; they differ in the
    banner, the identifier, the parameters, the size of the read and in
    how the parsed response becomes a verdict. *)
Definition scenario (banner : string) (isid : bytes) (params : str)
           (bufsize : nat) (verdict : option login_response -> M bool)
           (host : str) (port : Z) : M bool :=
  print (line_test banner) ;;;
  sock <- socket_socket ;;
  settimeout sock 5 ;;;
  try_except_finally
    (connect sock host port ;;;
     pdu <- lift (create_login_pdu isid 0 0 0 0 params) ;;
     sendall sock pdu ;;;
     response <- recv sock bufsize ;;
     result <- lift (parse_login_response response) ;;
     verdict result)
    report_failure
    (close sock).

(** The verdict part of [test_target_not_found] and of
    [test_missing_parameter]. *)
Definition verdict_strict (name expected_text : string) (expected : Z)
           (result : option login_response) : M bool :=
  cond <- lift (result_and_code_is result expected) ;;
  if cond then
    code <- lift (item_status_code result) ;;
    got <- lift (format code "04x") ;;
    print (line_pass name got) ;;;
    ret true
  else
    code <- lift (item_status_code result) ;;
    got <- lift (format code "04x if result else 0:04x") ;;
    print (line_fail_expected expected_text got) ;;;
    ret false.

(** The verdict part of [test_successful_login]. *)
Definition verdict_lenient (name expected_text : string) (expected : Z)
           (result : option login_response) : M bool :=
  cond <- lift (result_and_code_is result expected) ;;
  if cond then
    code <- lift (item_status_code result) ;;
    got <- lift (format code "04x") ;;
    print (line_pass name got) ;;;
    ret true
  else
    code <- lift (match result with
                  | Some _ => item_status_code result
                  | None => Ok 0
                  end) ;;
    got <- lift (format code "04x") ;;
    print (line_fail_expected expected_text got) ;;;
    ret false.

(** What running any of the three scenario functions comes to: a
    verdict, the socket created and closed again, a failing verdict if a
    socket call raised, and a passing one only for a parsed response
    with the expected code. *)
Definition runs_to_verdict (test : str -> Z -> M bool) (bufsize : nat)
           (expected : Z) : Prop :=
  forall host port w,
  exists v new out,
    test host port w = (Ok v, after w new out)
    /\ scoped (next_fd w) new = true
    /\ (existsb (call_raised w) new = true -> v = false)
    /\ (v = true ->
        exists data r,
          recv_outcome (peers w (next_fd w)) bufsize = inr data
          /\ parse_login_response (firstn bufsize data) = Ok (Some r)
          /\ status_code r = expected).

(** A scenario function contains the exceptions of its socket calls: it
    returns a verdict whatever the endpoint does, and a failing one when
    a call of its own raised. *)
Definition contains_exceptions (test : str -> Z -> M bool) : Prop :=
  forall host port w,
  exists v w',
    test host port w = (Ok v, w')
    /\ (existsb (call_raised w) (events_since w w') = true -> v = false).

(** A scenario function releases its connection: however it ends, the
    socket it created is closed by the time it returns, as the last
    thing it did. *)
Definition releases_connection (test : str -> Z -> M bool) : Prop :=
  forall host port w,
  exists r new out,
    test host port w = (r, after w new out)
    /\ scoped (next_fd w) new = true
    /\ ~ In (next_fd w) (open_fds (after w new out)).

(** An endpoint that refuses every connection. *)
Definition refusing : peer :=
  {| connect_outcome :=
       fun _ _ => Some (ConnectionRefusedError,
                        "[Errno 111] Connection refused"%string);
     sendall_outcome := fun _ => None;
     recv_outcome := fun _ => inr [] |}.

(** An endpoint that accepts the connection and the request and then
    closes: the read returns no bytes. *)
Definition silent : peer :=
  {| connect_outcome := fun _ _ => None;
     sendall_outcome := fun _ => None;
     recv_outcome := fun _ => inr [] |}.

(** An endpoint whose read raises an exception with the given text. *)
Definition resetting (text : string) : peer :=
  {| connect_outcome := fun _ _ => None;
     sendall_outcome := fun _ => None;
     recv_outcome := fun _ => inl (ConnectionResetError, text) |}.

(** An endpoint that answers with the given bytes. *)
Definition replying (data : bytes) : peer :=
  {| connect_outcome := fun _ _ => None;
     sendall_outcome := fun _ => None;
     recv_outcome := fun _ => inr data |}.

(** A header-only login response with the given status. *)
Definition login_response_bytes (status_class status_detail : byte)
  : bytes :=
  x23 :: repeat x00 35 ++ [status_class; status_detail] ++ repeat x00 10.

(** The world at the start of a run against the given endpoint. *)
Definition initial (p : peer) : world :=
  {| peers := fun _ => p; next_fd := 0; open_fds := [];
     events := []; stdout := [] |}.

(** The world at the start of a run against a target that answers each
    of the three scenarios, in the order [main] runs them, with the
    status the scenario expects. *)
Definition conforming : world :=
  {| peers := fun fd =>
                match fd with
                | 0%nat => replying (login_response_bytes x00 x00)
                | 1%nat => replying (login_response_bytes x02 x03)
                | _ => replying (login_response_bytes x02 x07)
                end;
     next_fd := 0; open_fds := []; events := []; stdout := [] |}.

End Runner.

Import Runner.

(** ** Vocabulary for describing what the program does *)

Module Behaviour.

(** A code point of a [str]. *)
Definition code_point (c : Z) : bool := (0 <=? c) && (c <=? 0x10FFFF).

(** An ASCII character. *)
Definition ascii_char (c : Z) : bool := (0 <=? c) && (c <? 0x80).

(** The four numbers fit the header fields [struct.pack_into] packs them
    into. *)
Definition fields_fit (tsih cid cmd_sn exp_stat_sn : Z) : Prop :=
  0 <= tsih <= 0xFFFF /\ 0 <= cid <= 0xFFFF
  /\ 0 <= cmd_sn <= 0xFFFFFFFF /\ 0 <= exp_stat_sn <= 0xFFFFFFFF.

(** The request a scenario sends: what the encoder returns for its
    identifier and parameters, the other fields being 0. *)
Definition request (isid : bytes) (params : str) : bytes :=
  match create_login_pdu isid 0 0 0 0 params with
  | Ok pdu => pdu
  | Raise _ => []
  end.

(** How far a scenario gets with an endpoint. *)
Inductive progress :=
| connect_failed (f : failure)
| sendall_failed (f : failure)
| recv_failed (f : failure)
| replied (data : bytes).

Definition progress_of (p : peer) (host : str) (port : Z) (pdu : bytes)
           (bufsize : nat) : progress :=
  match connect_outcome p host port with
  | Some f => connect_failed f
  | None =>
      match sendall_outcome p pdu with
      | Some f => sendall_failed f
      | None =>
          match recv_outcome p bufsize with
          | inl f => recv_failed f
          | inr data => replied (firstn bufsize data)
          end
      end
  end.

(** The socket calls of a scenario that got so far. *)
Definition calls (fd : nat) (host : str) (port : Z) (pdu : bytes)
           (bufsize : nat) (pr : progress) : list event :=
  [ev_socket fd; ev_settimeout fd 5; ev_connect fd host port]
    ++ match pr with
       | connect_failed _ => []
       | sendall_failed _ => [ev_sendall fd pdu]
       | recv_failed _ | replied _ => [ev_sendall fd pdu; ev_recv fd bufsize]
       end
    ++ [ev_close fd].

(** What the decoder makes of a reply. *)
Definition parsed (data : bytes) : option login_response :=
  match parse_login_response data with
  | Ok result => result
  | Raise _ => None
  end.

(** What the verdict part of a scenario function does with the decoder's
    result: it returns a verdict or raises, having printed some lines. *)
Definition report : Type :=
  option login_response -> (failure + bool) * list line.

(** The verdict part of [test_target_not_found] and
    [test_missing_parameter]. *)
Definition strict_report (name : string) (expected : Z) : report :=
  fun result =>
    match result with
    | Some r =>
        if status_code r =? expected
        then (inr true, [line_pass name (hex04 (status_code r))])
        else (inl (ValueError, "Invalid format specifier"%string), [])
    | None =>
        (inl (TypeError, "'NoneType' object is not subscriptable"%string),
         [])
    end.

(** The verdict part of [test_successful_login]. *)
Definition lenient_report (name expected_text : string) (expected : Z)
  : report :=
  fun result =>
    match result with
    | Some r =>
        if status_code r =? expected
        then (inr true, [line_pass name (hex04 (status_code r))])
        else (inr false,
              [line_fail_expected expected_text (hex04 (status_code r))])
    | None => (inr false, [line_fail_expected expected_text (hex04 0)])
    end.

(** The verdict and the lines once the [except] clause has dealt with what
    the verdict part raised. *)
Definition handled (rep : (failure + bool) * list line) : bool * list line :=
  match rep with
  | (inr v, out) => (v, out)
  | (inl f, out) => (false, out ++ [line_fail_exn (snd f)])
  end.

(** The verdict of a scenario and the lines it prints after its banner. *)
Definition summary (pr : progress) (rep : report) : bool * list line :=
  match pr with
  | replied data => handled (rep (parsed data))
  | connect_failed f | sendall_failed f | recv_failed f =>
      (false, [line_fail_exn (snd f)])
  end.

(** A verdict function does what a report says. *)
Definition reports_as (verdict : option login_response -> M bool)
           (rep : report) : Prop :=
  forall result w,
  exists w',
    verdict result w
    = (match fst (rep result) with
       | inl f => raise_failure f
       | inr v => Ok v
       end, w')
    /\ prints w w' (snd (rep result)).

(** A scenario function does what [progress_of], [calls] and [summary]
    say, in every world. *)
Definition behaves (test : str -> Z -> M bool) (banner : string)
           (isid : bytes) (params : str) (bufsize : nat) (rep : report)
  : Prop :=
  forall host port w,
    test host port w
    = (Ok (fst (summary
                  (progress_of (peers w (next_fd w)) host port
                               (request isid params) bufsize) rep)),
       after w
         (calls (next_fd w) host port (request isid params) bufsize
                (progress_of (peers w (next_fd w)) host port
                             (request isid params) bufsize))
         (line_test banner
            :: snd (summary
                      (progress_of (peers w (next_fd w)) host port
                                   (request isid params) bufsize) rep))).

(** The identifiers and parameter strings of the three scenario
    functions. *)
Definition isid_target_not_found : bytes := [x01; x02; x03; x04; x05; x06].
Definition isid_missing_parameter : bytes := [x01; x02; x03; x04; x05; x07].
Definition isid_successful_login : bytes := [x01; x02; x03; x04; x05; x08].

Definition params_target_not_found : str :=
  ((lit "InitiatorName=iqn.2025-12.test:python-client" ++ [0])
     ++ lit "TargetName=iqn.wrong.target.name" ++ [0])
    ++ lit "AuthMethod=None" ++ [0].

Definition params_missing_parameter : str :=
  (lit "TargetName=iqn.2025-12.local:storage.memory-disk" ++ [0])
    ++ lit "AuthMethod=None" ++ [0].

Definition params_successful_login : str :=
  ((lit "InitiatorName=iqn.2025-12.test:python-client" ++ [0])
     ++ lit "TargetName=iqn.2025-12.local:storage.memory-disk" ++ [0])
    ++ lit "AuthMethod=None" ++ [0].

(** A scenario function passes exactly when its three socket calls
    succeed and what it read decodes to a result with the expected status
    code. *)
Definition passes_iff (test : str -> Z -> M bool) (isid : bytes)
           (params : str) (bufsize : nat) (expected : Z) : Prop :=
  forall host port w,
    fst (test host port w) = Ok true
    <-> exists data r,
        connect_outcome (peers w (next_fd w)) host port = None
        /\ sendall_outcome (peers w (next_fd w)) (request isid params) = None
        /\ recv_outcome (peers w (next_fd w)) bufsize = inr data
        /\ parse_login_response (firstn bufsize data) = Ok (Some r)
        /\ status_code r = expected.

(** The socket calls a scenario function makes are those of [calls]. *)
Definition makes_calls (test : str -> Z -> M bool) (isid : bytes)
           (params : str) (bufsize : nat) : Prop :=
  forall host port w,
    events_since w (snd (test host port w))
    = calls (next_fd w) host port (request isid params) bufsize
            (progress_of (peers w (next_fd w)) host port
                         (request isid params) bufsize).

(** A scenario function prints its banner and one more line, which is the
    pass line when the verdict is passing and the line of the [except]
    clause when it is failing. *)
Definition fails_by_exception_only (test : str -> Z -> M bool)
           (banner name : string) (expected : Z) : Prop :=
  forall host port w,
  exists l,
    stdout (snd (test host port w)) = stdout w ++ [line_test banner; l]
    /\ ((fst (test host port w) = Ok true
         /\ l = line_pass name (hex04 expected))
        \/ (fst (test host port w) = Ok false
            /\ exists text, l = line_fail_exn text)).

(** How far each scenario function gets on socket [fd] of world [w]. *)
Definition progress_successful_login (w : world) (host : str) (port : Z)
           (fd : nat) : progress :=
  progress_of (peers w fd) host port
              (request isid_successful_login params_successful_login) 1024.

Definition progress_target_not_found (w : world) (host : str) (port : Z)
           (fd : nat) : progress :=
  progress_of (peers w fd) host port
              (request isid_target_not_found params_target_not_found) 48.

Definition progress_missing_parameter (w : world) (host : str) (port : Z)
           (fd : nat) : progress :=
  progress_of (peers w fd) host port
              (request isid_missing_parameter params_missing_parameter) 48.

(** The reports of the three scenario functions. *)
Definition report_successful_login : report :=
  lenient_report "SUCCESS" "0x0000" 0x0000.

Definition report_target_not_found : report :=
  strict_report "TARGET_NOT_FOUND" 0x0203.

Definition report_missing_parameter : report :=
  strict_report "MISSING_PARAMETER" 0x0207.

End Behaviour.

Import Behaviour.

(** ** Facts about the runtime model *)

Section PyFacts.

Lemma land_255 (z : Z) : Z.land z 0xFF = z mod 256.
Proof. apply (Z.land_ones z 8). lia. Qed.

Lemma land_255_range (z : Z) : 0 <= Z.land z 0xFF <= 255.
Proof.
  rewrite land_255. pose proof (Z.mod_pos_bound z 256 ltac:(lia)). lia.
Qed.

Lemma byte_to_Z_range (b : byte) : 0 <= byte_to_Z b <= 255.
Proof.
  unfold byte_to_Z. pose proof (Byte.to_N_bounded b). lia.
Qed.

Lemma byte_to_Z_b8 (z : Z) : byte_to_Z (b8 z) = Z.land z 0xFF.
Proof.
  unfold b8, byte_to_Z.
  pose proof (land_255_range z) as Hr.
  destruct (Byte.of_N (Z.to_N (Z.land z 255))) as [b|] eqn:E.
  - apply Byte.to_of_N in E. rewrite E. lia.
  - apply Byte.of_N_None_iff in E. lia.
Qed.

Lemma b8_byte_to_Z (b : byte) : b8 (byte_to_Z b) = b.
Proof.
  unfold b8.
  pose proof (byte_to_Z_range b) as Hr.
  replace (Z.land (byte_to_Z b) 255) with (byte_to_Z b).
  - unfold byte_to_Z. rewrite N2Z.id, Byte.of_to_N. reflexivity.
  - rewrite land_255, Z.mod_small; lia.
Qed.

Lemma byte_of_Z_small (z : Z) :
  0 <= z <= 255 -> byte_of_Z z = Some (b8 z).
Proof.
  intros Hr. unfold byte_of_Z, b8.
  destruct (Z.ltb_spec z 0) as [Hn|_]; [lia|].
  replace (Z.land z 255) with z.
  - destruct (Byte.of_N (Z.to_N z)) eqn:E; [reflexivity|].
    apply Byte.of_N_None_iff in E. lia.
  - rewrite land_255, Z.mod_small; lia.
Qed.

Lemma byte_of_Z_land (z : Z) : byte_of_Z (Z.land z 0xFF) = Some (b8 z).
Proof.
  rewrite byte_of_Z_small by apply land_255_range.
  f_equal. unfold b8. rewrite <- Z.land_assoc. reflexivity.
Qed.

Lemma b8_land (z : Z) : b8 (Z.land z 0xFF) = b8 z.
Proof. unfold b8. rewrite <- Z.land_assoc. reflexivity. Qed.

Lemma setitem_ok (buf : bytes) (i : nat) (v : Z) :
  (i < length buf)%nat -> 0 <= v <= 255 ->
  setitem buf i v = Ok (firstn i buf ++ b8 v :: skipn (S i) buf).
Proof.
  intros Hi Hv. unfold setitem.
  destruct (Nat.ltb_spec i (length buf)) as [_|Hge]; [|lia].
  rewrite byte_of_Z_small by assumption. reflexivity.
Qed.

Lemma pack_into_H_ok (buf : bytes) (offset : nat) (v : Z) :
  0 <= v <= 0xFFFF -> (offset + 2 <= length buf)%nat ->
  pack_into_H buf offset v
  = Ok (firstn offset buf ++ [b8 (Z.shiftr v 8); b8 v]
          ++ skipn (offset + 2) buf).
Proof.
  intros Hv Hl. unfold pack_into_H.
  destruct (Z.ltb_spec v 0); [lia|].
  destruct (Z.ltb_spec 0xFFFF v); [lia|].
  destruct (Nat.ltb_spec (length buf) (offset + 2)); [lia|].
  reflexivity.
Qed.

Lemma pack_into_I_ok (buf : bytes) (offset : nat) (v : Z) :
  0 <= v <= 0xFFFFFFFF -> (offset + 4 <= length buf)%nat ->
  pack_into_I buf offset v
  = Ok (firstn offset buf
          ++ [b8 (Z.shiftr v 24); b8 (Z.shiftr v 16); b8 (Z.shiftr v 8); b8 v]
          ++ skipn (offset + 4) buf).
Proof.
  intros Hv Hl. unfold pack_into_I.
  destruct (Z.ltb_spec v 0); [lia|].
  destruct (Z.ltb_spec 0xFFFFFFFF v); [lia|].
  destruct (Nat.ltb_spec (length buf) (offset + 4)); [lia|].
  reflexivity.
Qed.

Lemma encode_char_scalar (c : Z) :
  scalar_value c = true -> exists bs, encode_char c = Ok bs.
Proof.
  unfold scalar_value, encode_char. intros H.
  destruct (Z.ltb_spec c 0), (Z.ltb_spec 0x10FFFF c),
    (Z.ltb_spec c 0x80), (Z.ltb_spec c 0x800), (Z.ltb_spec c 0x10000),
    (Z.leb_spec 0xD800 c), (Z.leb_spec c 0xDFFF);
    cbn [orb andb]; try (eexists; reflexivity);
    exfalso; revert H;
    destruct (Z.leb_spec 0 c), (Z.ltb_spec c 0xD800),
      (Z.leb_spec 0xE000 c), (Z.leb_spec c 0x10FFFF);
    cbn; (discriminate || lia).
Qed.

Lemma encode_utf8_total (s : str) :
  encodable s = true -> exists text, encode_utf8 s = Ok text.
Proof.
  induction s as [|c s IH]; intros H.
  - exists []. reflexivity.
  - cbn in H. apply andb_true_iff in H as [Hc Hs].
    destruct (encode_char_scalar c Hc) as [bs Hbs].
    destruct (IH Hs) as [rest Hrest].
    exists (bs ++ rest). cbn. rewrite Hbs. cbn. rewrite Hrest. reflexivity.
Qed.

End PyFacts.


(** ** Facts about the encoder *)

Section EncoderFacts.

Lemma pad_gap_step (n : nat) :
  (n mod 4 <> 0 ->
   (4 - n mod 4) mod 4 = S ((4 - (n + 1) mod 4) mod 4))%nat.
Proof.
  intros Hn.
  pose proof (Nat.mod_upper_bound n 4 ltac:(lia)) as Hb.
  rewrite <- (Nat.Div0.add_mod_idemp_l n 1 4).
  destruct (n mod 4)%nat as [|[|[|[|k]]]]; try lia; reflexivity.
Qed.

Lemma pad_loop_spec (bs : bytes) :
  pad_loop bs = bs ++ repeat x00 ((4 - length bs mod 4) mod 4).
Proof.
  funelim (pad_loop bs).
  - rewrite e. cbn. rewrite app_nil_r. reflexivity.
  - match goal with IH : pad_loop _ = _ ++ _ |- _ => rewrite IH end.
    rewrite length_app. cbn [length].
    rewrite (pad_gap_step (length param_bytes)) by assumption.
    rewrite <- app_assoc. reflexivity.
Qed.

Lemma pad_loop_length_mod4 (bs : bytes) :
  (length (pad_loop bs) mod 4 = 0)%nat.
Proof.
  funelim (pad_loop bs); assumption.
Qed.

Lemma pad_gap_lt4 (n : nat) : ((4 - n mod 4) mod 4 < 4)%nat.
Proof. apply Nat.mod_upper_bound. lia. Qed.

Lemma create_login_pdu_eq (isid : bytes) (tsih cid cmd_sn exp_stat_sn : Z)
      (params : str) (text : bytes) :
  length isid = 6%nat ->
  0 <= tsih <= 0xFFFF -> 0 <= cid <= 0xFFFF ->
  0 <= cmd_sn <= 0xFFFFFFFF -> 0 <= exp_stat_sn <= 0xFFFFFFFF ->
  encode_utf8 params = Ok text ->
  create_login_pdu isid tsih cid cmd_sn exp_stat_sn params
  = Ok (spec_header isid tsih cid cmd_sn exp_stat_sn
          (Z.of_nat (length (pad_loop text)))
          ++ pad_loop text).
Proof.
  intros Hisid Ht Hc Hs He Henc.
  unfold create_login_pdu. rewrite Henc. cbn [Py.bind].
  generalize (Z.of_nat (length (pad_loop text))) as dl.
  generalize (pad_loop text) as padded. intros padded dl.
  destruct isid as [|i0 [|i1 [|i2 [|i3 [|i4 [|i5 [|i6 isid]]]]]]];
    try discriminate Hisid.
  repeat (rewrite setitem_ok
            by (first [ apply land_255_range | cbn; lia ]);
          cbn [Py.bind firstn skipn repeat app]).
  cbn [setslice firstn skipn app Nat.max].
  repeat (first [ rewrite pack_into_H_ok by (cbn [length]; lia)
                | rewrite pack_into_I_ok by (cbn [length]; lia) ];
          cbn [Py.bind firstn skipn app Nat.add]).
  rewrite !b8_land.
  reflexivity.
Qed.

Lemma shiftr_b8_value (v : Z) (k : Z) :
  0 <= k -> byte_to_Z (b8 (Z.shiftr v k)) = (v / 2 ^ k) mod 256.
Proof.
  intros Hk. rewrite byte_to_Z_b8, land_255, Z.shiftr_div_pow2 by lia.
  reflexivity.
Qed.

Lemma b8_value (v : Z) : byte_to_Z (b8 v) = v mod 256.
Proof. rewrite byte_to_Z_b8. apply land_255. Qed.

Lemma be_value_be16 (v : Z) :
  0 <= v <= 0xFFFF -> be_value (be16 v) = v.
Proof.
  intros Hv. unfold be_value, be16. cbn [fold_left].
  rewrite shiftr_b8_value, b8_value by lia.
  change (2 ^ 8) with 256.
  pose proof (Z.div_mod v 256 ltac:(lia)) as Hd.
  pose proof (Z.mod_pos_bound v 256 ltac:(lia)) as Hm.
  assert (Hq : 0 <= v / 256 < 256).
  { split; [apply Z.div_pos; lia | apply Z.div_lt_upper_bound; lia]. }
  rewrite (Z.mod_small (v / 256)) by exact Hq. lia.
Qed.

Lemma be_value_be32 (v : Z) :
  0 <= v <= 0xFFFFFFFF -> be_value (be32 v) = v.
Proof.
  intros Hv. unfold be_value, be32. cbn [fold_left].
  rewrite !shiftr_b8_value, b8_value by lia.
  change (2 ^ 24) with 16777216. change (2 ^ 16) with 65536.
  change (2 ^ 8) with 256.
  Z.div_mod_to_equations. lia.
Qed.

Lemma be_value_len24 (n : Z) :
  0 <= n ->
  be_value [b8 (Z.shiftr n 16); b8 (Z.shiftr n 8); b8 n] = n mod 2 ^ 24.
Proof.
  intros Hn. unfold be_value. cbn [fold_left].
  rewrite !shiftr_b8_value, b8_value by lia.
  change (2 ^ 24) with 16777216. change (2 ^ 16) with 65536.
  change (2 ^ 8) with 256.
  Z.div_mod_to_equations. lia.
Qed.

Lemma spec_header_length (isid : bytes) (tsih cid cmd_sn exp_stat_sn dl : Z) :
  length isid = 6%nat ->
  length (spec_header isid tsih cid cmd_sn exp_stat_sn dl) = 48%nat.
Proof.
  intros H. unfold spec_header, be16, be32.
  rewrite !length_app, H. reflexivity.
Qed.

End EncoderFacts.

(** ** Facts about the encoder, whatever the length of [isid] *)

Section EncoderHead.

Lemma pack_into_H_cons (h : byte) (t : bytes) (off : nat) (v : Z) :
  0 <= v <= 0xFFFF -> (off + 2 <= length t)%nat ->
  exists t', pack_into_H (h :: t) (S off) v = Ok (h :: t')
             /\ length t' = length t.
Proof.
  intros Hv Hl. rewrite pack_into_H_ok by (cbn [length]; lia).
  cbn [firstn app]. eexists. split; [reflexivity|].
  rewrite length_app, length_firstn. cbn [length app Nat.add skipn].
  rewrite length_skipn. lia.
Qed.

Lemma pack_into_I_cons (h : byte) (t : bytes) (off : nat) (v : Z) :
  0 <= v <= 0xFFFFFFFF -> (off + 4 <= length t)%nat ->
  exists t', pack_into_I (h :: t) (S off) v = Ok (h :: t')
             /\ length t' = length t.
Proof.
  intros Hv Hl. rewrite pack_into_I_ok by (cbn [length]; lia).
  cbn [firstn app]. eexists. split; [reflexivity|].
  rewrite length_app, length_firstn. cbn [length app Nat.add skipn].
  rewrite length_skipn. lia.
Qed.

Lemma create_login_pdu_head (isid : bytes) (tsih cid cmd_sn exp_stat_sn : Z)
      (params : str) (text : bytes) :
  0 <= tsih <= 0xFFFF -> 0 <= cid <= 0xFFFF ->
  0 <= cmd_sn <= 0xFFFFFFFF -> 0 <= exp_stat_sn <= 0xFFFFFFFF ->
  encode_utf8 params = Ok text ->
  exists rest,
    create_login_pdu isid tsih cid cmd_sn exp_stat_sn params
    = Ok (b8 (Z.lor 0x03 0x40) :: rest).
Proof.
  intros Ht Hc Hs He Henc.
  unfold create_login_pdu. rewrite Henc. cbn [Py.bind].
  generalize (Z.of_nat (length (pad_loop text))) as dl.
  generalize (pad_loop text) as padded. intros padded dl.
  repeat (rewrite setitem_ok
            by (first [ apply land_255_range | cbn; lia ]);
          cbn [Py.bind firstn skipn repeat app]).
  cbn [setslice firstn skipn app Nat.max].
  match goal with
  | |- context [pack_into_H (?h :: ?t) 14 tsih] =>
      assert (Hlen : (41 <= length t)%nat)
        by (cbn [length]; rewrite length_app; cbn [length]; lia);
      destruct (pack_into_H_cons h t 13 tsih Ht ltac:(lia)) as (t1 & E1 & L1);
      rewrite E1; cbn [Py.bind]
  end.
  destruct (pack_into_I_cons (b8 (Z.lor 3 64)) t1 15 cmd_sn Hs ltac:(lia))
    as (t2 & E2 & L2).
  rewrite E2; cbn [Py.bind].
  destruct (pack_into_H_cons (b8 (Z.lor 3 64)) t2 19 cid Hc ltac:(lia))
    as (t3 & E3 & L3).
  rewrite E3; cbn [Py.bind].
  destruct (pack_into_I_cons (b8 (Z.lor 3 64)) t3 23 cmd_sn Hs ltac:(lia))
    as (t4 & E4 & L4).
  rewrite E4; cbn [Py.bind].
  destruct (pack_into_I_cons (b8 (Z.lor 3 64)) t4 27 exp_stat_sn He ltac:(lia))
    as (t5 & E5 & L5).
  rewrite E5; cbn [Py.bind].
  exists (t5 ++ padded). reflexivity.
Qed.

End EncoderHead.

(** ** Facts about the decoder *)

Section DecoderFacts.

Lemma getitem_some (data : bytes) (i : nat) :
  (i < length data)%nat ->
  exists b, nth_error data i = Some b /\ getitem data i = Ok (byte_to_Z b).
Proof.
  intros Hi. unfold getitem.
  destruct (nth_error data i) as [b|] eqn:E.
  - exists b. split; reflexivity.
  - apply nth_error_None in E. lia.
Qed.

(** What the decoder does on a buffer long enough. *)
Lemma parse_login_response_long (data : bytes) :
  (48 <= length data)%nat ->
  exists b0 c d,
    nth_error data 0 = Some b0 /\ nth_error data 36 = Some c
    /\ nth_error data 37 = Some d
    /\ parse_login_response data
       = if negb (Z.land (byte_to_Z b0) 0x3F =? 0x23) then Ok None
         else Ok (Some {| opcode := Z.land (byte_to_Z b0) 0x3F;
                          status_class := byte_to_Z c;
                          status_detail := byte_to_Z d;
                          status_code :=
                            Z.lor (Z.shiftl (byte_to_Z c) 8)
                                  (byte_to_Z d) |}).
Proof.
  intros Hl.
  destruct (getitem_some data 0 ltac:(lia)) as (b0 & N0 & G0).
  destruct (getitem_some data 36 ltac:(lia)) as (c & N36 & G36).
  destruct (getitem_some data 37 ltac:(lia)) as (d & N37 & G37).
  exists b0, c, d. repeat split; try assumption.
  unfold parse_login_response.
  destruct (Z.ltb_spec (Z.of_nat (length data)) 48) as [Hs|_]; [lia|].
  rewrite G0. cbn [Py.bind].
  destruct (negb (Z.land (byte_to_Z b0) 63 =? 35)); [reflexivity|].
  rewrite G36, G37. reflexivity.
Qed.

Lemma parse_login_response_short (data : bytes) :
  (length data < 48)%nat -> parse_login_response data = Ok None.
Proof.
  intros Hl. unfold parse_login_response.
  destruct (Z.ltb_spec (Z.of_nat (length data)) 48) as [_|Hs]; [|lia].
  reflexivity.
Qed.

Lemma parse_login_response_returns (data : bytes) :
  exists result, parse_login_response data = Ok result.
Proof.
  destruct (Nat.lt_ge_cases (length data) 48) as [Hs|Hl].
  - rewrite (parse_login_response_short data Hs). eexists; reflexivity.
  - destruct (parse_login_response_long data Hl)
      as (b0 & c & d & _ & _ & _ & Hp).
    rewrite Hp.
    destruct (negb (Z.land (byte_to_Z b0) 63 =? 35)); eexists; reflexivity.
Qed.

End DecoderFacts.

(** ** Properties of the codec *)

Section CodecProperties.

(** C1. For a 6-byte initiator-session identifier, a 2-byte continuation
    tag, a connection identifier, sequence numbers that fit their fields
    and a parameter string that encodes, the encoder returns a 48-byte
    header with byte 0 = 0x03 | 0x40, byte 1 = 0x83, byte 4 = 0, bytes
    5-7 the 24-bit big-endian padded payload length, bytes 8-13 the
    identifier, bytes 14-15 the tag, bytes 16-19 the command sequence
    number as task identifier, bytes 20-21 the connection identifier,
    bytes 24-27 the command sequence number and bytes 28-31 the
    expected-status sequence number, all big-endian, followed at once by
    the null-padded parameter text. *)
Theorem create_login_pdu_wire_layout
        (isid : bytes) (tsih cid cmd_sn exp_stat_sn : Z) (params : str) :
  length isid = 6%nat ->
  0 <= tsih <= 0xFFFF -> 0 <= cid <= 0xFFFF ->
  0 <= cmd_sn <= 0xFFFFFFFF -> 0 <= exp_stat_sn <= 0xFFFFFFFF ->
  encodable params = true ->
  exists text pdu,
    encode_utf8 params = Ok text
    /\ create_login_pdu isid tsih cid cmd_sn exp_stat_sn params = Ok pdu
    /\ login_request_layout isid tsih cid cmd_sn exp_stat_sn text pdu.
Proof.
  intros Hisid Ht Hc Hs He Henc.
  destruct (encode_utf8_total params Henc) as [text Htext].
  exists text. eexists. split; [exact Htext|].
  split; [apply create_login_pdu_eq; eassumption|].
  exists (spec_header isid tsih cid cmd_sn exp_stat_sn
            (Z.of_nat (length (pad_loop text)))),
    ((4 - length text mod 4) mod 4)%nat.
  rewrite <- pad_loop_spec.
  split; [reflexivity|].
  split; [apply spec_header_length; assumption|].
  split; [apply pad_gap_lt4|].
  split; [apply pad_loop_length_mod4|].
  destruct isid as [|i0 [|i1 [|i2 [|i3 [|i4 [|i5 [|i6 isid]]]]]]];
    try discriminate Hisid.
  repeat split.
  - change (be_value [b8 (Z.shiftr (Z.of_nat (length (pad_loop text))) 16);
                      b8 (Z.shiftr (Z.of_nat (length (pad_loop text))) 8);
                      b8 (Z.of_nat (length (pad_loop text)))]
            = Z.of_nat (length (pad_loop text)) mod 2 ^ 24).
    apply be_value_len24. lia.
  - change (be_value (be16 tsih) = tsih). apply be_value_be16; assumption.
  - change (be_value (be32 cmd_sn) = cmd_sn). apply be_value_be32; assumption.
  - change (be_value (be16 cid) = cid). apply be_value_be16; assumption.
  - change (be_value (be32 cmd_sn) = cmd_sn). apply be_value_be32; assumption.
  - change (be_value (be32 exp_stat_sn) = exp_stat_sn).
    apply be_value_be32; assumption.
Qed.

Lemma create_login_pdu_wire_layout_witness :
  exists text pdu,
    encode_utf8 (lit "AuthMethod=None" ++ [0]) = Ok text
    /\ create_login_pdu [x01; x02; x03; x04; x05; x06] 0x0102 7 0x01020304 9
                        (lit "AuthMethod=None" ++ [0]) = Ok pdu
    /\ login_request_layout [x01; x02; x03; x04; x05; x06] 0x0102 7
                            0x01020304 9 text pdu.
Proof.
  apply create_login_pdu_wire_layout;
    [reflexivity | lia | lia | lia | lia | reflexivity].
Defined.

(** C2. A buffer of exactly 48 bytes whose byte 0 has low six bits 0x23
    decodes to a result, not to [None]; its status class is byte 36, its
    status detail byte 37, and its status code (byte 36 << 8) | byte 37. *)
Theorem parse_login_response_status_code (data : bytes) (b0 : byte) :
  length data = 48%nat ->
  nth_error data 0 = Some b0 ->
  Z.land (byte_to_Z b0) 0x3F = 0x23 ->
  exists r c d,
    parse_login_response data = Ok (Some r)
    /\ getitem data 36 = Ok c /\ getitem data 37 = Ok d
    /\ status_class r = c /\ status_detail r = d
    /\ status_code r = Z.lor (Z.shiftl c 8) d.
Proof.
  intros Hl H0 Hop.
  destruct (parse_login_response_long data ltac:(lia))
    as (b0' & c & d & N0 & N36 & N37 & Hp).
  rewrite H0 in N0. injection N0 as <-.
  rewrite Hop in Hp. cbn [Z.eqb Pos.eqb negb] in Hp.
  eexists. exists (byte_to_Z c), (byte_to_Z d).
  split; [exact Hp|].
  unfold getitem. rewrite N36, N37. cbn. repeat split.
Qed.

Lemma parse_login_response_status_code_witness :
  exists r c d,
    parse_login_response
      (x23 :: repeat x00 35 ++ [x02; x03] ++ repeat x00 10) = Ok (Some r)
    /\ getitem (x23 :: repeat x00 35 ++ [x02; x03] ++ repeat x00 10) 36
       = Ok c
    /\ getitem (x23 :: repeat x00 35 ++ [x02; x03] ++ repeat x00 10) 37
       = Ok d
    /\ status_class r = c /\ status_detail r = d
    /\ status_code r = Z.lor (Z.shiftl c 8) d.
Proof.
  apply (parse_login_response_status_code _ x23);
    [reflexivity | reflexivity | reflexivity].
Defined.

(** C3. The decoder never raises, and it returns [None] exactly when the
    buffer is shorter than 48 bytes or the low six bits of its byte 0 are
    not 0x23, whatever the rest of the buffer holds. *)
Theorem parse_login_response_no_result_iff (data : bytes) :
  (exists r, parse_login_response data = Ok r)
  /\ (parse_login_response data = Ok None
      <-> ((length data < 48)%nat
           \/ exists b0, nth_error data 0 = Some b0
                         /\ Z.land (byte_to_Z b0) 0x3F <> 0x23)).
Proof.
  destruct (Nat.lt_ge_cases (length data) 48) as [Hs|Hl].
  - rewrite (parse_login_response_short data Hs).
    split; [eexists; reflexivity|].
    split; [left; assumption | reflexivity].
  - destruct (parse_login_response_long data Hl)
      as (b0 & c & d & N0 & _ & _ & Hp).
    rewrite Hp.
    destruct (Z.eqb_spec (Z.land (byte_to_Z b0) 63) 35) as [E|NE];
      cbn [negb].
    + split; [eexists; reflexivity|].
      split; [discriminate|].
      intros [Hs | (b & Hb & Hne)]; [lia|].
      rewrite N0 in Hb. injection Hb as <-. contradiction.
    + split; [eexists; reflexivity|].
      split; [|reflexivity].
      intros _. right. exists b0. split; assumption.
Qed.

(** The encoder succeeds on inputs that fit their fields, and what it
    returns is the specified header followed by what the padding loop
    made of the encoded text. *)
Lemma create_login_pdu_shape
      (isid : bytes) (tsih cid cmd_sn exp_stat_sn : Z) (params : str) :
  length isid = 6%nat ->
  0 <= tsih <= 0xFFFF -> 0 <= cid <= 0xFFFF ->
  0 <= cmd_sn <= 0xFFFFFFFF -> 0 <= exp_stat_sn <= 0xFFFFFFFF ->
  encodable params = true ->
  exists text,
    encode_utf8 params = Ok text
    /\ create_login_pdu isid tsih cid cmd_sn exp_stat_sn params
       = Ok (spec_header isid tsih cid cmd_sn exp_stat_sn
               (Z.of_nat (length (pad_loop text)))
               ++ pad_loop text).
Proof.
  intros Hisid Ht Hc Hs He Henc.
  destruct (encode_utf8_total params Henc) as [text Htext].
  exists text. split; [exact Htext|].
  apply create_login_pdu_eq; assumption.
Qed.

Lemma skipn_header (hdr rest : bytes) :
  length hdr = 48%nat -> skipn 48 (hdr ++ rest) = rest.
Proof.
  intros H. rewrite skipn_app, H, Nat.sub_diag.
  rewrite skipn_all2 by lia. reflexivity.
Qed.

(** C4. For every parameter string that encodes, the empty one included,
    what follows the 48-byte header is the encoded text right-padded with
    null bytes, and its length is a multiple of 4. *)
Theorem create_login_pdu_payload_padded
        (isid : bytes) (tsih cid cmd_sn exp_stat_sn : Z) (params : str) :
  length isid = 6%nat ->
  0 <= tsih <= 0xFFFF -> 0 <= cid <= 0xFFFF ->
  0 <= cmd_sn <= 0xFFFFFFFF -> 0 <= exp_stat_sn <= 0xFFFFFFFF ->
  encodable params = true ->
  exists text pdu pad,
    encode_utf8 params = Ok text
    /\ create_login_pdu isid tsih cid cmd_sn exp_stat_sn params = Ok pdu
    /\ skipn 48 pdu = text ++ repeat x00 pad
    /\ (pad < 4)%nat
    /\ (length (skipn 48 pdu) mod 4 = 0)%nat.
Proof.
  intros Hisid Ht Hc Hs He Henc.
  destruct (create_login_pdu_shape isid tsih cid cmd_sn exp_stat_sn params)
    as (text & Htext & Hpdu); try assumption.
  exists text. eexists. exists ((4 - length text mod 4) mod 4)%nat.
  split; [exact Htext|]. split; [exact Hpdu|].
  rewrite skipn_header by (apply spec_header_length; assumption).
  split; [apply pad_loop_spec|].
  split; [apply pad_gap_lt4 | apply pad_loop_length_mod4].
Qed.

Lemma create_login_pdu_payload_padded_witness :
  exists text pdu pad,
    encode_utf8 [] = Ok text
    /\ create_login_pdu [x01; x02; x03; x04; x05; x06] 0 0 0 0 [] = Ok pdu
    /\ skipn 48 pdu = text ++ repeat x00 pad
    /\ (pad < 4)%nat
    /\ (length (skipn 48 pdu) mod 4 = 0)%nat.
Proof.
  apply create_login_pdu_payload_padded;
    [reflexivity | lia | lia | lia | lia | reflexivity].
Defined.

Lemma pack_into_H_keeps (p t : bytes) (off : nat) (v : Z) :
  0 <= v <= 0xFFFF -> (off + 2 <= length t)%nat ->
  exists t', pack_into_H (p ++ t) (length p + off) v = Ok (p ++ t')
             /\ length t' = length t.
Proof.
  intros Hv Hl.
  rewrite pack_into_H_ok by (rewrite ?length_app; lia).
  rewrite firstn_app_2.
  replace (length p + off + 2)%nat with (length p + (off + 2))%nat by lia.
  rewrite skipn_app, skipn_all2 by lia.
  replace (length p + (off + 2) - length p)%nat with (off + 2)%nat by lia.
  cbn [app]. rewrite <- app_assoc.
  eexists. split; [reflexivity|].
  rewrite length_app, length_firstn. cbn [length app].
  rewrite length_skipn. lia.
Qed.

Lemma pack_into_I_keeps (p t : bytes) (off : nat) (v : Z) :
  0 <= v <= 0xFFFFFFFF -> (off + 4 <= length t)%nat ->
  exists t', pack_into_I (p ++ t) (length p + off) v = Ok (p ++ t')
             /\ length t' = length t.
Proof.
  intros Hv Hl.
  rewrite pack_into_I_ok by (rewrite ?length_app; lia).
  rewrite firstn_app_2.
  replace (length p + off + 4)%nat with (length p + (off + 4))%nat by lia.
  rewrite skipn_app, skipn_all2 by lia.
  replace (length p + (off + 4) - length p)%nat with (off + 4)%nat by lia.
  cbn [app]. rewrite <- app_assoc.
  eexists. split; [reflexivity|].
  rewrite length_app, length_firstn. cbn [length app].
  rewrite length_skipn. lia.
Qed.

(** The first eight bytes of what the encoder returns, for an [isid] of
    any length: the pack calls write from offset 14 on and leave them as
    the item assignments made them. *)
Lemma create_login_pdu_prefix (isid : bytes) (tsih cid cmd_sn exp_stat_sn : Z)
      (params : str) (text : bytes) :
  0 <= tsih <= 0xFFFF -> 0 <= cid <= 0xFFFF ->
  0 <= cmd_sn <= 0xFFFFFFFF -> 0 <= exp_stat_sn <= 0xFFFFFFFF ->
  encode_utf8 params = Ok text ->
  exists rest,
    create_login_pdu isid tsih cid cmd_sn exp_stat_sn params
    = Ok ([b8 (Z.lor 0x03 0x40); b8 0x83; x00; x00; x00;
           b8 (Z.shiftr (Z.of_nat (length (pad_loop text))) 16);
           b8 (Z.shiftr (Z.of_nat (length (pad_loop text))) 8);
           b8 (Z.of_nat (length (pad_loop text)))]
            ++ rest ++ pad_loop text)
    /\ length rest = (34 + length isid)%nat.
Proof.
  intros Ht Hc Hs He Henc.
  unfold create_login_pdu. rewrite Henc. cbn [Py.bind].
  generalize (Z.of_nat (length (pad_loop text))) as dl.
  generalize (pad_loop text) as padded. intros padded dl.
  repeat (rewrite setitem_ok
            by (first [ apply land_255_range | cbn; lia ]);
          cbn [Py.bind firstn skipn repeat app]).
  cbn [setslice firstn skipn app Nat.max].
  rewrite !b8_land.
  match goal with
  | |- context [pack_into_H
                  (?a0 :: ?a1 :: ?a2 :: ?a3 :: ?a4 :: ?a5 :: ?a6 :: ?a7
                       :: ?t) 14 tsih] =>
      set (p := [a0; a1; a2; a3; a4; a5; a6; a7]);
      assert (Hlen : length t = (34 + length isid)%nat)
        by (rewrite length_app; cbn [length]; lia);
      change (a0 :: a1 :: a2 :: a3 :: a4 :: a5 :: a6 :: a7 :: t)
        with (p ++ t);
      destruct (pack_into_H_keeps p t 6 tsih Ht ltac:(lia))
        as (t1 & E1 & L1)
  end.
  change (length p + 6)%nat with 14%nat in E1.
  rewrite E1. cbn [Py.bind].
  destruct (pack_into_I_keeps p t1 8 cmd_sn Hs ltac:(lia)) as (t2 & E2 & L2).
  change (length p + 8)%nat with 16%nat in E2.
  rewrite E2. cbn [Py.bind].
  destruct (pack_into_H_keeps p t2 12 cid Hc ltac:(lia)) as (t3 & E3 & L3).
  change (length p + 12)%nat with 20%nat in E3.
  rewrite E3. cbn [Py.bind].
  destruct (pack_into_I_keeps p t3 16 cmd_sn Hs ltac:(lia)) as (t4 & E4 & L4).
  change (length p + 16)%nat with 24%nat in E4.
  rewrite E4. cbn [Py.bind].
  destruct (pack_into_I_keeps p t4 20 exp_stat_sn He ltac:(lia))
    as (t5 & E5 & L5).
  change (length p + 20)%nat with 28%nat in E5.
  rewrite E5. cbn [Py.bind].
  exists t5. split; [|lia].
  subst p. rewrite <- app_assoc. reflexivity.
Qed.

(** C5. Bytes 5, 6 and 7 of the encoder's output, most significant
    first, hold the byte length of the padded payload modulo 2^24: the
    payload being the UTF-8 encoding of the parameter string followed by
    the null bytes that bring it to a multiple of 4, which is what the
    output ends with.  This holds for an [isid] of any length; for a
    6-byte one the payload is the output after byte 48. *)
Theorem create_login_pdu_length_field
        (isid : bytes) (tsih cid cmd_sn exp_stat_sn : Z) (params : str) :
  0 <= tsih <= 0xFFFF -> 0 <= cid <= 0xFFFF ->
  0 <= cmd_sn <= 0xFFFFFFFF -> 0 <= exp_stat_sn <= 0xFFFFFFFF ->
  encodable params = true ->
  exists text pad bhs pdu b5 b6 b7,
    encode_utf8 params = Ok text
    /\ (pad < 4)%nat
    /\ (length (text ++ repeat x00 pad) mod 4 = 0)%nat
    /\ create_login_pdu isid tsih cid cmd_sn exp_stat_sn params = Ok pdu
    /\ pdu = bhs ++ text ++ repeat x00 pad
    /\ length bhs = (42 + length isid)%nat
    /\ getitem pdu 5 = Ok b5 /\ getitem pdu 6 = Ok b6
    /\ getitem pdu 7 = Ok b7
    /\ 0 <= b5 <= 255 /\ 0 <= b6 <= 255 /\ 0 <= b7 <= 255
    /\ b5 * 65536 + b6 * 256 + b7
       = Z.of_nat (length (text ++ repeat x00 pad)) mod 2 ^ 24
    /\ (length isid = 6%nat ->
        skipn 48 pdu = text ++ repeat x00 pad
        /\ b5 * 65536 + b6 * 256 + b7
           = Z.of_nat (length (skipn 48 pdu)) mod 2 ^ 24).
Proof.
  intros Ht Hc Hs He Henc.
  destruct (encode_utf8_total params Henc) as [text Htext].
  destruct (create_login_pdu_prefix isid tsih cid cmd_sn exp_stat_sn params
              text Ht Hc Hs He Htext) as (rest & Hpdu & Lrest).
  pose proof (be_value_len24 (Z.of_nat (length (pad_loop text)))
                             ltac:(lia)) as Hbe.
  unfold be_value in Hbe. cbn [fold_left] in Hbe.
  set (dl := Z.of_nat (length (pad_loop text))) in *.
  assert (Hsum : byte_to_Z (b8 (Z.shiftr dl 16)) * 65536
                 + byte_to_Z (b8 (Z.shiftr dl 8)) * 256
                 + byte_to_Z (b8 dl) = dl mod 2 ^ 24)
    by (rewrite <- Hbe; ring).
  exists text, ((4 - length text mod 4) mod 4)%nat,
    ([b8 (Z.lor 0x03 0x40); b8 0x83; x00; x00; x00;
      b8 (Z.shiftr dl 16); b8 (Z.shiftr dl 8); b8 dl] ++ rest).
  eexists.
  exists (byte_to_Z (b8 (Z.shiftr dl 16))),
    (byte_to_Z (b8 (Z.shiftr dl 8))), (byte_to_Z (b8 dl)).
  rewrite <- pad_loop_spec.
  split; [exact Htext|].
  split; [apply pad_gap_lt4|].
  split; [apply pad_loop_length_mod4|].
  split; [exact Hpdu|].
  split; [rewrite <- app_assoc; reflexivity|].
  split; [rewrite length_app; cbn [length]; lia|].
  split; [reflexivity|]. split; [reflexivity|]. split; [reflexivity|].
  split; [apply byte_to_Z_range|].
  split; [apply byte_to_Z_range|].
  split; [apply byte_to_Z_range|].
  split; [exact Hsum|].
  intros Hisid.
  assert (Hskip : skipn 48
                    ([b8 (Z.lor 0x03 0x40); b8 0x83; x00; x00; x00;
                      b8 (Z.shiftr dl 16); b8 (Z.shiftr dl 8); b8 dl]
                       ++ rest ++ pad_loop text) = pad_loop text).
  { rewrite app_assoc. apply skipn_header.
    rewrite length_app. cbn [length]. lia. }
  rewrite Hskip. split; [reflexivity | exact Hsum].
Qed.

Lemma create_login_pdu_length_field_witness :
  exists text pad bhs pdu b5 b6 b7,
    encode_utf8 (lit "a=b" ++ [0x20AC]) = Ok text
    /\ (pad < 4)%nat
    /\ (length (text ++ repeat x00 pad) mod 4 = 0)%nat
    /\ create_login_pdu [x01; x02; x03; x04; x05; x06] 0x0102 7 0x01020304 9
                        (lit "a=b" ++ [0x20AC]) = Ok pdu
    /\ pdu = bhs ++ text ++ repeat x00 pad
    /\ length bhs = (42 + length [x01; x02; x03; x04; x05; x06])%nat
    /\ getitem pdu 5 = Ok b5 /\ getitem pdu 6 = Ok b6
    /\ getitem pdu 7 = Ok b7
    /\ 0 <= b5 <= 255 /\ 0 <= b6 <= 255 /\ 0 <= b7 <= 255
    /\ b5 * 65536 + b6 * 256 + b7
       = Z.of_nat (length (text ++ repeat x00 pad)) mod 2 ^ 24
    /\ (length [x01; x02; x03; x04; x05; x06] = 6%nat ->
        skipn 48 pdu = text ++ repeat x00 pad
        /\ b5 * 65536 + b6 * 256 + b7
           = Z.of_nat (length (skipn 48 pdu)) mod 2 ^ 24).
Proof.
  apply create_login_pdu_length_field;
    [lia | lia | lia | lia | reflexivity].
Defined.

(** C10. What the encoder returns never decodes as a login response: its
    byte 0 is 0x03 | 0x40, whose low six bits are 0x03 and not 0x23, so
    the decoder returns [None] on it. *)
Theorem request_never_parses_as_response
        (isid : bytes) (tsih cid cmd_sn exp_stat_sn : Z) (params : str) :
  0 <= tsih <= 0xFFFF -> 0 <= cid <= 0xFFFF ->
  0 <= cmd_sn <= 0xFFFFFFFF -> 0 <= exp_stat_sn <= 0xFFFFFFFF ->
  encodable params = true ->
  exists pdu,
    create_login_pdu isid tsih cid cmd_sn exp_stat_sn params = Ok pdu
    /\ parse_login_response pdu = Ok None.
Proof.
  intros Ht Hc Hs He Henc.
  destruct (encode_utf8_total params Henc) as [text Htext].
  destruct (create_login_pdu_head isid tsih cid cmd_sn exp_stat_sn params
              text Ht Hc Hs He Htext) as [rest Hpdu].
  eexists. split; [exact Hpdu|].
  destruct (Nat.lt_ge_cases (length (b8 (Z.lor 3 64) :: rest)) 48)
    as [Hshort|Hlong].
  - apply parse_login_response_short. assumption.
  - destruct (parse_login_response_long _ Hlong)
      as (b0 & c & d & N0 & _ & _ & Hp).
    rewrite Hp. cbn [nth_error] in N0. injection N0 as <-.
    reflexivity.
Qed.

Lemma request_never_parses_as_response_witness :
  exists pdu,
    create_login_pdu [x01; x02; x03; x04; x05; x06] 0 0 0 0
                     (lit "AuthMethod=None" ++ [0]) = Ok pdu
    /\ parse_login_response pdu = Ok None.
Proof.
  apply request_never_parses_as_response;
    [lia | lia | lia | lia | reflexivity].
Defined.

End CodecProperties.

(** ** Facts about the scenario functions *)

Section ScenarioFacts.

Local Open Scope run_scope.

Lemma test_target_not_found_scenario :
  test_target_not_found
  = scenario "Test 1: TARGET_NOT_FOUND (0x0203)..."
      [x01; x02; x03; x04; x05; x06]
      (((lit "InitiatorName=iqn.2025-12.test:python-client" ++ [0])
          ++ lit "TargetName=iqn.wrong.target.name" ++ [0])
         ++ lit "AuthMethod=None" ++ [0])
      48
      (verdict_strict "TARGET_NOT_FOUND" "0x0203" 0x0203).
Proof. reflexivity. Qed.

Lemma test_missing_parameter_scenario :
  test_missing_parameter
  = scenario "Test 2: MISSING_PARAMETER (0x0207)..."
      [x01; x02; x03; x04; x05; x07]
      ((lit "TargetName=iqn.2025-12.local:storage.memory-disk" ++ [0])
         ++ lit "AuthMethod=None" ++ [0])
      48
      (verdict_strict "MISSING_PARAMETER" "0x0207" 0x0207).
Proof. reflexivity. Qed.

Lemma test_successful_login_scenario :
  test_successful_login
  = scenario "Test 3: SUCCESS (0x0000)..."
      [x01; x02; x03; x04; x05; x08]
      (((lit "InitiatorName=iqn.2025-12.test:python-client" ++ [0])
          ++ lit "TargetName=iqn.2025-12.local:storage.memory-disk" ++ [0])
         ++ lit "AuthMethod=None" ++ [0])
      1024
      (verdict_lenient "SUCCESS" "0x0000" 0x0000).
Proof. reflexivity. Qed.

Lemma prints_nothing (w : world) : prints w w [].
Proof. unfold prints. rewrite app_nil_r. repeat split. Qed.

Lemma prints_one (w : world) (l : line) :
  prints w (snd (print l w)) [l].
Proof. unfold prints. cbn. repeat split. Qed.

Lemma verdict_strict_only_prints (name expected_text : string)
      (expected : Z) (result : option login_response) :
  only_prints (verdict_strict name expected_text expected result).
Proof.
  intros w. unfold verdict_strict, bind, lift.
  destruct result as [r|]; cbn.
  - destruct (status_code r =? expected); cbn.
    + do 3 eexists. split; [reflexivity|]. split; [apply prints_one|exact I].
    + do 3 eexists. split; [reflexivity|].
      split; [apply prints_nothing|reflexivity].
  - do 3 eexists. split; [reflexivity|].
    split; [apply prints_nothing|reflexivity].
Qed.

Lemma verdict_lenient_only_prints (name expected_text : string)
      (expected : Z) (result : option login_response) :
  only_prints (verdict_lenient name expected_text expected result).
Proof.
  intros w. unfold verdict_lenient, bind, lift.
  destruct result as [r|]; cbn.
  - destruct (status_code r =? expected); cbn.
    + do 3 eexists. split; [reflexivity|]. split; [apply prints_one|exact I].
    + do 3 eexists. split; [reflexivity|]. split; [apply prints_one|exact I].
  - do 3 eexists. split; [reflexivity|]. split; [apply prints_one|exact I].
Qed.

(** A passing verdict needs a parsed response with the expected code. *)
Lemma verdict_strict_true (name expected_text : string) (expected : Z)
      (result : option login_response) (w w' : world) :
  verdict_strict name expected_text expected result w = (Ok true, w') ->
  exists r, result = Some r /\ status_code r = expected.
Proof.
  unfold verdict_strict, bind, lift.
  destruct result as [r|]; cbn.
  - destruct (Z.eqb_spec (status_code r) expected) as [E|NE]; cbn.
    + intros _. exists r. split; [reflexivity|exact E].
    + discriminate.
  - discriminate.
Qed.

Lemma verdict_lenient_true (name expected_text : string) (expected : Z)
      (result : option login_response) (w w' : world) :
  verdict_lenient name expected_text expected result w = (Ok true, w') ->
  exists r, result = Some r /\ status_code r = expected.
Proof.
  unfold verdict_lenient, bind, lift.
  destruct result as [r|]; cbn.
  - destruct (Z.eqb_spec (status_code r) expected) as [E|NE]; cbn.
    + intros _. exists r. split; [reflexivity|exact E].
    + discriminate.
  - discriminate.
Qed.

(** Bring the world a scenario leaves into the form [after w new out]. *)
Ltac settle_world :=
  unfold after; cbn [peers next_fd open_fds events stdout];
  rewrite ?remove_cons, <- ?app_assoc; cbn [app]; reflexivity.

Ltac settle_scope :=
  cbn [scoped used_then_closed event_fd is_use andb];
  rewrite ?Nat.eqb_refl; reflexivity.

Lemma scenario_run (banner : string) (isid : bytes) (params : str)
      (bufsize : nat) (verdict : option login_response -> M bool)
      (host : str) (port : Z) (w : world) (pdu : bytes) :
  create_login_pdu isid 0 0 0 0 params = Ok pdu ->
  (forall result, only_prints (verdict result)) ->
  exists v new out,
    scenario banner isid params bufsize verdict host port w
    = (Ok v, after w new out)
    /\ scoped (next_fd w) new = true
    /\ (existsb (call_raised w) new = true -> v = false)
    /\ (v = true ->
        exists data result w1 w2,
          recv_outcome (peers w (next_fd w)) bufsize = inr data
          /\ parse_login_response (firstn bufsize data) = Ok result
          /\ verdict result w1 = (Ok true, w2)).
Proof.
  intros Hpdu Hverdict.
  unfold scenario, report_failure, bind, print, socket_socket, settimeout,
    try_except_finally, connect, sendall, recv, close, lift, ret, log.
  cbn [peers next_fd open_fds events stdout].
  rewrite Hpdu.
  destruct (connect_outcome (peers w (next_fd w)) host port)
    as [fc|] eqn:Hc; cbn [raise_failure is_Exception].
  { exists false. do 2 eexists. split; [settle_world|].
    split; [settle_scope|]. split; [reflexivity | discriminate]. }
  destruct (sendall_outcome (peers w (next_fd w)) pdu)
    as [fs|] eqn:Hs; cbn [raise_failure is_Exception].
  { exists false. do 2 eexists. split; [settle_world|].
    split; [settle_scope|]. split; [reflexivity | discriminate]. }
  destruct (recv_outcome (peers w (next_fd w)) bufsize)
    as [fr|data] eqn:Hr; cbn [raise_failure is_Exception].
  { exists false. do 2 eexists. split; [settle_world|].
    split; [settle_scope|]. split; [reflexivity | discriminate]. }
  destruct (parse_login_response_returns (firstn bufsize data))
    as [result Hparse].
  rewrite Hparse.
  match goal with
  | |- context [verdict result ?w5] =>
      destruct (Hverdict result w5) as (r & w6 & out & Hrun & Hpr & Hexc);
      rewrite Hrun
  end.
  destruct Hpr as (P1 & P2 & P3 & P4 & P5).
  cbn [peers next_fd open_fds events stdout] in P1, P2, P3, P4, P5.
  destruct r as [v|e].
  - exists v. do 2 eexists.
    split.
    { rewrite P1, P2, P3, P4, P5. settle_world. }
    split; [settle_scope|].
    split.
    + cbn [existsb call_raised]. rewrite Hc, Hs, Hr. discriminate.
    + intros ->. exists data, result. do 2 eexists.
      split; [reflexivity|]. split; [exact Hparse | exact Hrun].
  - rewrite Hexc.
    exists false. do 2 eexists.
    split.
    { cbn [peers next_fd open_fds events stdout].
      rewrite P1, P2, P3, P4, P5. settle_world. }
    split; [settle_scope|].
    split; [reflexivity | discriminate].
Qed.

Lemma verdict_strict_no_result (name expected_text : string) (expected : Z)
      (w : world) :
  verdict_strict name expected_text expected None w
  = (Raise (Exception TypeError "'NoneType' object is not subscriptable"),
     w).
Proof. reflexivity. Qed.

Lemma verdict_lenient_no_result (name expected_text : string)
      (expected : Z) (w : world) :
  verdict_lenient name expected_text expected None w
  = (Ok false,
     snd (print (line_fail_expected expected_text (hex04 0)) w)).
Proof. reflexivity. Qed.

Lemma test_target_not_found_run :
  runs_to_verdict test_target_not_found 48 0x0203.
Proof.
  intros host port w. rewrite test_target_not_found_scenario.
  match goal with
  | |- context [scenario _ ?isid ?params _ _ _ _ _] =>
      destruct (create_login_pdu_shape isid 0 0 0 0 params)
        as (text & _ & Hpdu);
      [reflexivity | lia | lia | lia | lia | reflexivity |]
  end.
  edestruct scenario_run as (v & new & out & Hrun & Hsc & Hraise & Htrue);
    [exact Hpdu | intros result; apply verdict_strict_only_prints |].
  exists v, new, out. split; [exact Hrun|].
  split; [exact Hsc|]. split; [exact Hraise|].
  intros Hv. destruct (Htrue Hv) as (data & result & w1 & w2 & Hr & Hp & Hvd).
  apply verdict_strict_true in Hvd as (r & -> & Hcode).
  exists data, r. repeat split; assumption.
Qed.

Lemma test_missing_parameter_run :
  runs_to_verdict test_missing_parameter 48 0x0207.
Proof.
  intros host port w. rewrite test_missing_parameter_scenario.
  match goal with
  | |- context [scenario _ ?isid ?params _ _ _ _ _] =>
      destruct (create_login_pdu_shape isid 0 0 0 0 params)
        as (text & _ & Hpdu);
      [reflexivity | lia | lia | lia | lia | reflexivity |]
  end.
  edestruct scenario_run as (v & new & out & Hrun & Hsc & Hraise & Htrue);
    [exact Hpdu | intros result; apply verdict_strict_only_prints |].
  exists v, new, out. split; [exact Hrun|].
  split; [exact Hsc|]. split; [exact Hraise|].
  intros Hv. destruct (Htrue Hv) as (data & result & w1 & w2 & Hr & Hp & Hvd).
  apply verdict_strict_true in Hvd as (r & -> & Hcode).
  exists data, r. repeat split; assumption.
Qed.

Lemma test_successful_login_run :
  runs_to_verdict test_successful_login 1024 0x0000.
Proof.
  intros host port w. rewrite test_successful_login_scenario.
  match goal with
  | |- context [scenario _ ?isid ?params _ _ _ _ _] =>
      destruct (create_login_pdu_shape isid 0 0 0 0 params)
        as (text & _ & Hpdu);
      [reflexivity | lia | lia | lia | lia | reflexivity |]
  end.
  edestruct scenario_run as (v & new & out & Hrun & Hsc & Hraise & Htrue);
    [exact Hpdu | intros result; apply verdict_lenient_only_prints |].
  exists v, new, out. split; [exact Hrun|].
  split; [exact Hsc|]. split; [exact Hraise|].
  intros Hv. destruct (Htrue Hv) as (data & result & w1 & w2 & Hr & Hp & Hvd).
  apply verdict_lenient_true in Hvd as (r & -> & Hcode).
  exists data, r. repeat split; assumption.
Qed.

End ScenarioFacts.

(** ** Facts about [main] *)

Section MainFacts.

Variable int : str -> result Z.

(** With a host and a port that parses, [main] runs the three scenario
    functions one after the other, each in the world the one before left,
    and ends in [sys.exit]. *)
Lemma main_run (prog host portstr : str) (port : Z) (w : world) :
  int portstr = Ok port ->
  exists v1 v2 v3 n1 n2 n3 o1 o2 o3 w0 wf,
    prints w w0 [line_rule; line_title; line_rule;
                 line_target host port; line_blank]
    /\ test_successful_login host port w0 = (Ok v1, after w0 n1 o1)
    /\ test_target_not_found host port (after w0 n1 o1)
       = (Ok v2, after (after w0 n1 o1) n2 o2)
    /\ test_missing_parameter host port (after (after w0 n1 o1) n2 o2)
       = (Ok v3, after (after (after w0 n1 o1) n2 o2) n3 o3)
    /\ scoped (next_fd w) n1 = true
    /\ scoped (S (next_fd w)) n2 = true
    /\ scoped (S (S (next_fd w))) n3 = true
    /\ main int [prog; host; portstr] w
       = (Raise (SystemExit (if all [v1; v2; v3] then 0 else 1)), wf)
    /\ prints (after (after (after w0 n1 o1) n2 o2) n3 o3) wf
         [line_blank; line_rule; line_results (sum [v1; v2; v3]) 3;
          line_rule].
Proof.
  intros Hport.
  unfold main. cbn [length Nat.eqb negb nth].
  unfold bind at 1. unfold lift at 1. rewrite Hport.
  do 5 (unfold bind at 1; unfold print at 1).
  unfold bind at 1.
  match goal with
  | |- context [test_successful_login host port ?w0] =>
      set (w0' := w0);
      destruct (test_successful_login_run host port w0')
        as (v1 & n1 & o1 & R1 & S1 & _ & _)
  end.
  rewrite R1.
  unfold bind at 1.
  destruct (test_target_not_found_run host port (after w0' n1 o1))
    as (v2 & n2 & o2 & R2 & S2 & _ & _).
  rewrite R2.
  unfold bind at 1.
  destruct (test_missing_parameter_run host port
              (after (after w0' n1 o1) n2 o2))
    as (v3 & n3 & o3 & R3 & S3 & _ & _).
  rewrite R3.
  exists v1, v2, v3, n1, n2, n3, o1, o2, o3, w0'. eexists.
  split.
  { unfold prints, w0'. cbn [peers next_fd open_fds events stdout].
    rewrite <- !app_assoc. repeat split. }
  do 3 (split; [assumption|]).
  split; [exact S1|]. split; [exact S2|]. split; [exact S3|].
  split.
  { unfold bind, print, sys_exit. cbn [app]. reflexivity. }
  unfold prints. cbn [peers next_fd open_fds events stdout app length].
  rewrite <- !app_assoc. repeat split.
Qed.

End MainFacts.

(** ** Properties of the runner *)

Section RunnerProperties.

Lemma events_since_after (w : world) (new : list event) (out : list line) :
  events_since w (after w new out) = new.
Proof.
  unfold events_since, after. cbn [events].
  rewrite skipn_app, Nat.sub_diag, skipn_all. reflexivity.
Qed.

Lemma events_since_prints (w0 w1 wf : world) (new : list event)
      (out : list line) :
  events w1 = events w0 ++ new -> prints w1 wf out ->
  events_since w0 wf = new.
Proof.
  intros H1 (_ & _ & _ & He & _).
  unfold events_since. rewrite He, H1.
  rewrite skipn_app, Nat.sub_diag, skipn_all. reflexivity.
Qed.

Lemma used_then_closed_no_socket (fd : nat) (evs : list event) :
  used_then_closed fd evs = true -> filter is_ev_socket evs = [].
Proof.
  induction evs as [|e evs IH]; [discriminate|].
  destruct e; destruct evs as [|e' evs'];
    cbn [used_then_closed is_use andb event_fd];
    rewrite ?andb_false_r; try discriminate;
    intros H; try (apply andb_true_iff in H as [_ H]);
    cbn [filter is_ev_socket]; try reflexivity; apply IH; exact H.
Qed.

Lemma scoped_one_socket (fd : nat) (evs : list event) :
  scoped fd evs = true -> filter is_ev_socket evs = [ev_socket fd].
Proof.
  destruct evs as [|e evs]; [discriminate|].
  destruct e; try discriminate. cbn [scoped].
  intros H. apply andb_true_iff in H as [Hfd H].
  apply Nat.eqb_eq in Hfd. subst.
  cbn [filter is_ev_socket].
  rewrite (used_then_closed_no_socket _ _ H). reflexivity.
Qed.

Lemma runs_to_verdict_contains (test : str -> Z -> M bool) (bufsize : nat)
      (expected : Z) :
  runs_to_verdict test bufsize expected -> contains_exceptions test.
Proof.
  intros Hrun host port w.
  destruct (Hrun host port w) as (v & new & out & R & _ & Hraise & _).
  exists v, (after w new out). split; [exact R|].
  rewrite events_since_after. exact Hraise.
Qed.

Lemma runs_to_verdict_releases (test : str -> Z -> M bool) (bufsize : nat)
      (expected : Z) :
  runs_to_verdict test bufsize expected -> releases_connection test.
Proof.
  intros Hrun host port w.
  destruct (Hrun host port w) as (v & new & out & R & Hsc & _ & _).
  exists (Ok v), new, out. split; [exact R|]. split; [exact Hsc|].
  unfold after. cbn [open_fds]. apply remove_In.
Qed.

(** A response that does not parse gives a failing verdict, in each of
    the three scenario functions. *)
Lemma no_result_fails (test : str -> Z -> M bool) (bufsize : nat)
      (expected : Z) (host : str) (port : Z) (w : world) (data : bytes) :
  runs_to_verdict test bufsize expected ->
  recv_outcome (peers w (next_fd w)) bufsize = inr data ->
  parse_login_response (firstn bufsize data) = Ok None ->
  fst (test host port w) = Ok false.
Proof.
  intros Hrun Hrecv Hparse.
  destruct (Hrun host port w) as (v & new & out & R & _ & _ & Htrue).
  rewrite R. cbn [fst]. destruct v; [|reflexivity].
  destruct (Htrue eq_refl) as (data' & r & Hrecv' & Hparse' & _).
  rewrite Hrecv in Hrecv'. injection Hrecv' as <-.
  rewrite Hparse in Hparse'. discriminate.
Qed.

(** C6. An exception raised by connect, send or receive stays inside the
    scenario function: the function returns a verdict, a failing one,
    and [main] goes on to create the sockets of all three scenarios and
    to end in [sys.exit]. *)
Theorem scenario_exceptions_contained :
  contains_exceptions test_successful_login
  /\ contains_exceptions test_target_not_found
  /\ contains_exceptions test_missing_parameter
  /\ forall (int : str -> result Z) (prog host portstr : str) (port : Z)
            (w : world),
      int portstr = Ok port ->
      exists code wf,
        main int [prog; host; portstr] w = (Raise (SystemExit code), wf)
        /\ filter is_ev_socket (events_since w wf)
           = [ev_socket (next_fd w); ev_socket (S (next_fd w));
              ev_socket (S (S (next_fd w)))].
Proof.
  split; [exact (runs_to_verdict_contains _ _ _ test_successful_login_run)|].
  split; [exact (runs_to_verdict_contains _ _ _ test_target_not_found_run)|].
  split; [exact (runs_to_verdict_contains _ _ _ test_missing_parameter_run)|].
  intros int prog host portstr port w Hport.
  destruct (main_run int prog host portstr port w Hport)
    as (v1 & v2 & v3 & n1 & n2 & n3 & o1 & o2 & o3 & w0 & wf
        & Hw0 & _ & _ & _ & S1 & S2 & S3 & Hmain & Hwf).
  do 2 eexists. split; [exact Hmain|].
  destruct Hw0 as (_ & _ & _ & He0 & _).
  assert (Hev : events (after (after (after w0 n1 o1) n2 o2) n3 o3)
                = events w ++ n1 ++ n2 ++ n3).
  { unfold after; cbn [events]. rewrite He0, <- !app_assoc. reflexivity. }
  rewrite (events_since_prints w _ wf _ _ Hev Hwf).
  rewrite !filter_app.
  rewrite (scoped_one_socket _ _ S1), (scoped_one_socket _ _ S2),
    (scoped_one_socket _ _ S3).
  reflexivity.
Qed.

Lemma scenario_exceptions_contained_witness :
  exists code wf,
    main (fun _ => Ok 3260) [lit "probe"; lit "127.0.0.1"; lit "3260"]
         (initial refusing)
    = (Raise (SystemExit code), wf)
    /\ filter is_ev_socket (events_since (initial refusing) wf)
       = [ev_socket 0; ev_socket 1; ev_socket 2].
Proof.
  apply (proj2 (proj2 (proj2 scenario_exceptions_contained))
           (fun _ => Ok 3260) (lit "probe") (lit "127.0.0.1") (lit "3260")
           3260 (initial refusing)).
  reflexivity.
Defined.

(** C7. [main] runs the three scenario functions whatever their verdicts,
    and the process exits with status 0 exactly when all three verdicts
    are passing; with a failing one the status is 1. *)
Theorem main_exit_status (int : str -> result Z) (prog host portstr : str)
        (port : Z) (w : world) :
  int portstr = Ok port ->
  exists v1 v2 v3 w0 w1 w2 w3 wf,
    prints w w0 [line_rule; line_title; line_rule;
                 line_target host port; line_blank]
    /\ test_successful_login host port w0 = (Ok v1, w1)
    /\ test_target_not_found host port w1 = (Ok v2, w2)
    /\ test_missing_parameter host port w2 = (Ok v3, w3)
    /\ prints w3 wf [line_blank; line_rule;
                     line_results (sum [v1; v2; v3]) 3; line_rule]
    /\ main int [prog; host; portstr] w
       = (Raise (SystemExit (if all [v1; v2; v3] then 0 else 1)), wf)
    /\ (exit_status (fst (main int [prog; host; portstr] w)) = 0
        <-> v1 = true /\ v2 = true /\ v3 = true)
    /\ (exit_status (fst (main int [prog; host; portstr] w)) <> 0
        <-> v1 = false \/ v2 = false \/ v3 = false).
Proof.
  intros Hport.
  destruct (main_run int prog host portstr port w Hport)
    as (v1 & v2 & v3 & n1 & n2 & n3 & o1 & o2 & o3 & w0 & wf
        & Hw0 & R1 & R2 & R3 & _ & _ & _ & Hmain & Hwf).
  exists v1, v2, v3, w0. do 3 eexists. exists wf.
  split; [exact Hw0|]. split; [exact R1|]. split; [exact R2|].
  split; [exact R3|]. split; [exact Hwf|]. split; [exact Hmain|].
  rewrite Hmain. cbn [fst exit_status].
  destruct v1, v2, v3; cbn [all forallb andb];
    intuition (try discriminate; try lia; try congruence).
Qed.

Lemma main_exit_status_witness :
  exists v1 v2 v3 w0 w1 w2 w3 wf,
    prints (initial refusing) w0
           [line_rule; line_title; line_rule;
            line_target (lit "127.0.0.1") 3260; line_blank]
    /\ test_successful_login (lit "127.0.0.1") 3260 w0 = (Ok v1, w1)
    /\ test_target_not_found (lit "127.0.0.1") 3260 w1 = (Ok v2, w2)
    /\ test_missing_parameter (lit "127.0.0.1") 3260 w2 = (Ok v3, w3)
    /\ prints w3 wf [line_blank; line_rule;
                     line_results (sum [v1; v2; v3]) 3; line_rule]
    /\ main (fun _ => Ok 3260)
            [lit "probe"; lit "127.0.0.1"; lit "3260"] (initial refusing)
       = (Raise (SystemExit (if all [v1; v2; v3] then 0 else 1)), wf)
    /\ (exit_status
          (fst (main (fun _ => Ok 3260)
                     [lit "probe"; lit "127.0.0.1"; lit "3260"]
                     (initial refusing))) = 0
        <-> v1 = true /\ v2 = true /\ v3 = true)
    /\ (exit_status
          (fst (main (fun _ => Ok 3260)
                     [lit "probe"; lit "127.0.0.1"; lit "3260"]
                     (initial refusing))) <> 0
        <-> v1 = false \/ v2 = false \/ v3 = false).
Proof.
  apply (main_exit_status (fun _ => Ok 3260) (lit "probe")
           (lit "127.0.0.1") (lit "3260") 3260 (initial refusing)).
  reflexivity.
Defined.

(** C8. Each scenario function closes the socket it created before it
    returns, on every path, and nothing else happens after the close; in
    a run of [main] each scenario's socket is closed before the next
    scenario's socket is created, and no socket is left open. *)
Theorem connection_released_on_every_path :
  releases_connection test_successful_login
  /\ releases_connection test_target_not_found
  /\ releases_connection test_missing_parameter
  /\ forall (int : str -> result Z) (prog host portstr : str) (port : Z)
            (w : world),
      int portstr = Ok port ->
      exists n1 n2 n3,
        events_since w (snd (main int [prog; host; portstr] w))
        = n1 ++ n2 ++ n3
        /\ scoped (next_fd w) n1 = true
        /\ scoped (S (next_fd w)) n2 = true
        /\ scoped (S (S (next_fd w))) n3 = true
        /\ (open_fds w = [] ->
            open_fds (snd (main int [prog; host; portstr] w)) = []).
Proof.
  split; [exact (runs_to_verdict_releases _ _ _ test_successful_login_run)|].
  split; [exact (runs_to_verdict_releases _ _ _ test_target_not_found_run)|].
  split; [exact (runs_to_verdict_releases _ _ _ test_missing_parameter_run)|].
  intros int prog host portstr port w Hport.
  destruct (main_run int prog host portstr port w Hport)
    as (v1 & v2 & v3 & n1 & n2 & n3 & o1 & o2 & o3 & w0 & wf
        & Hw0 & _ & _ & _ & S1 & S2 & S3 & Hmain & Hwf).
  exists n1, n2, n3. rewrite Hmain. cbn [snd].
  destruct Hw0 as (_ & _ & Ho0 & He0 & _).
  assert (Hev : events (after (after (after w0 n1 o1) n2 o2) n3 o3)
                = events w ++ n1 ++ n2 ++ n3).
  { unfold after; cbn [events]. rewrite He0, <- !app_assoc. reflexivity. }
  split; [exact (events_since_prints w _ wf _ _ Hev Hwf)|].
  split; [exact S1|]. split; [exact S2|]. split; [exact S3|].
  intros Hopen. destruct Hwf as (_ & _ & Hof & _ & _).
  rewrite Hof. unfold after. cbn [open_fds].
  rewrite Ho0, Hopen. reflexivity.
Qed.

Lemma connection_released_on_every_path_witness :
  exists n1 n2 n3,
    events_since (initial silent)
      (snd (main (fun _ => Ok 3260)
                 [lit "probe"; lit "127.0.0.1"; lit "3260"]
                 (initial silent)))
    = n1 ++ n2 ++ n3
    /\ scoped 0 n1 = true
    /\ scoped 1 n2 = true
    /\ scoped 2 n3 = true
    /\ (open_fds (initial silent) = [] ->
        open_fds (snd (main (fun _ => Ok 3260)
                            [lit "probe"; lit "127.0.0.1"; lit "3260"]
                            (initial silent))) = []).
Proof.
  apply (proj2 (proj2 (proj2 connection_released_on_every_path))
           (fun _ => Ok 3260) (lit "probe") (lit "127.0.0.1") (lit "3260")
           3260 (initial silent)).
  reflexivity.
Defined.

(** C9. Where the code departs from the claim: when the endpoint's reply
    is too short to parse, [test_target_not_found] and
    [test_missing_parameter] do fail the scenario, but through the
    exception handler: they print the text of a [TypeError], exactly what
    they print when the read itself raises an exception with that text.
    [test_successful_login] reports the same reply as a mismatch, with
    code 0. *)
Theorem no_result_reported_as_exception :
  parse_login_response (firstn 48 []) = Ok None
  /\ fst (test_target_not_found (lit "127.0.0.1") 3260 (initial silent))
     = Ok false
  /\ stdout (snd (test_target_not_found (lit "127.0.0.1") 3260
                    (initial silent)))
     = [line_test "Test 1: TARGET_NOT_FOUND (0x0203)...";
        line_fail_exn "'NoneType' object is not subscriptable"]
  /\ stdout (snd (test_target_not_found (lit "127.0.0.1") 3260
                    (initial (resetting
                       "'NoneType' object is not subscriptable"))))
     = stdout (snd (test_target_not_found (lit "127.0.0.1") 3260
                      (initial silent)))
  /\ fst (test_missing_parameter (lit "127.0.0.1") 3260 (initial silent))
     = Ok false
  /\ stdout (snd (test_missing_parameter (lit "127.0.0.1") 3260
                    (initial silent)))
     = [line_test "Test 2: MISSING_PARAMETER (0x0207)...";
        line_fail_exn "'NoneType' object is not subscriptable"]
  /\ fst (test_successful_login (lit "127.0.0.1") 3260 (initial silent))
     = Ok false
  /\ stdout (snd (test_successful_login (lit "127.0.0.1") 3260
                    (initial silent)))
     = [line_test "Test 3: SUCCESS (0x0000)...";
        line_fail_expected "0x0000" (hex04 0)].
Proof.
  repeat split; vm_compute; reflexivity.
Qed.

End RunnerProperties.

(** ** The program on sample inputs *)

Section Samples.

Example create_login_pdu_sample :
  create_login_pdu [x01; x02; x03; x04; x05; x06] 0 0 0 0 (lit "a=b" ++ [0])
  = Ok ([x43; x83; x00; x00; x00; x00; x00; x04;
         x01; x02; x03; x04; x05; x06; x00; x00]
          ++ repeat x00 32 ++ [x61; x3d; x62; x00]).
Proof. vm_compute. reflexivity. Qed.

Example create_login_pdu_pads :
  create_login_pdu [x01; x02; x03; x04; x05; x06] 0x0a0b 0x0c0d
                   0x01020304 0x05060708 (lit "k=v1" ++ [0])
  = Ok ([x43; x83; x00; x00; x00; x00; x00; x08;
         x01; x02; x03; x04; x05; x06; x0a; x0b;
         x01; x02; x03; x04; x0c; x0d; x00; x00;
         x01; x02; x03; x04; x05; x06; x07; x08]
          ++ repeat x00 16
          ++ [x6b; x3d; x76; x31; x00; x00; x00; x00]).
Proof. vm_compute. reflexivity. Qed.

Example create_login_pdu_short_isid :
  option_map (@length byte)
    (match create_login_pdu [x01; x02; x03; x04; x05] 0 0 0 0 [] with
     | Ok pdu => Some pdu
     | Raise _ => None
     end) = Some 47%nat.
Proof. vm_compute. reflexivity. Qed.

Example create_login_pdu_wide_cid :
  create_login_pdu [x01; x02; x03; x04; x05; x06] 0 0x10000 0 0 []
  = Raise (Exception struct_error
             "'H' format requires 0 <= number <= 65535").
Proof. vm_compute. reflexivity. Qed.

Example create_login_pdu_surrogate :
  create_login_pdu [x01; x02; x03; x04; x05; x06] 0 0 0 0 [0xD800]
  = Raise (Exception UnicodeEncodeError "surrogates not allowed").
Proof. vm_compute. reflexivity. Qed.

Example encode_utf8_sample :
  encode_utf8 [0x41; 0xE9; 0x20AC; 0x1F600]
  = Ok [x41; xc3; xa9; xe2; x82; xac; xf0; x9f; x98; x80].
Proof. vm_compute. reflexivity. Qed.

Example parse_login_response_sample :
  parse_login_response (login_response_bytes x02 x03)
  = Ok (Some {| opcode := 0x23; status_class := 2; status_detail := 3;
                status_code := 0x0203 |}).
Proof. vm_compute. reflexivity. Qed.

Example parse_login_response_flags_masked :
  parse_login_response (xe3 :: repeat x00 35 ++ [x02; x07]
                            ++ repeat x00 10)
  = Ok (Some {| opcode := 0x23; status_class := 2; status_detail := 7;
                status_code := 0x0207 |}).
Proof. vm_compute. reflexivity. Qed.

Example parse_login_response_47 :
  parse_login_response (x23 :: repeat x00 46) = Ok None.
Proof. vm_compute. reflexivity. Qed.

Example refused_connection_fails :
  fst (test_target_not_found (lit "127.0.0.1") 3260 (initial refusing))
  = Ok false
  /\ stdout (snd (test_target_not_found (lit "127.0.0.1") 3260
                    (initial refusing)))
     = [line_test "Test 1: TARGET_NOT_FOUND (0x0203)...";
        line_fail_exn "[Errno 111] Connection refused"]
  /\ existsb (call_raised (initial refusing))
       (events (snd (test_target_not_found (lit "127.0.0.1") 3260
                       (initial refusing)))) = true.
Proof. repeat split; vm_compute; reflexivity. Qed.

Example unreachable_target_exits_1 :
  fst (main (fun _ => Ok 3260) [lit "probe"; lit "127.0.0.1"; lit "3260"]
            (initial refusing))
  = Raise (SystemExit 1).
Proof. vm_compute. reflexivity. Qed.

Example conforming_target_exits_0 :
  fst (main (fun _ => Ok 3260) [lit "probe"; lit "127.0.0.1"; lit "3260"]
            conforming)
  = Raise (SystemExit 0)
  /\ stdout (snd (main (fun _ => Ok 3260)
                       [lit "probe"; lit "127.0.0.1"; lit "3260"]
                       conforming))
     = [line_rule; line_title; line_rule;
        line_target (lit "127.0.0.1") 3260; line_blank;
        line_test "Test 3: SUCCESS (0x0000)...";
        line_pass "SUCCESS" (hex04 0);
        line_test "Test 1: TARGET_NOT_FOUND (0x0203)...";
        line_pass "TARGET_NOT_FOUND" (hex04 0x0203);
        line_test "Test 2: MISSING_PARAMETER (0x0207)...";
        line_pass "MISSING_PARAMETER" (hex04 0x0207);
        line_blank; line_rule; line_results 3 3; line_rule].
Proof. split; vm_compute; reflexivity. Qed.

Example status_mismatch_fails_by_exception :
  fst (test_target_not_found (lit "127.0.0.1") 3260
         (initial (replying (login_response_bytes x00 x00))))
  = Ok false
  /\ stdout (snd (test_target_not_found (lit "127.0.0.1") 3260
                    (initial (replying (login_response_bytes x00 x00)))))
     = [line_test "Test 1: TARGET_NOT_FOUND (0x0203)...";
        line_fail_exn "Invalid format specifier"].
Proof. split; vm_compute; reflexivity. Qed.

Example usage_error_exits_1 :
  main (fun _ => Ok 3260) [lit "probe"; lit "127.0.0.1"] (initial refusing)
  = (Raise (SystemExit 1),
     {| peers := fun _ => refusing; next_fd := 0; open_fds := [];
        events := [];
        stdout := [line_usage (lit "probe"); line_example (lit "probe")] |}).
Proof. reflexivity. Qed.

End Samples.

(** ** More about the encoder *)

Section EncoderDomain.

Local Open Scope result_scope.

(** Once the text is encoded, what is left of [create_login_pdu] is the
    five [struct.pack_into] calls, on a buffer of 42 bytes plus the length
    of [isid]. *)
Lemma create_login_pdu_packs (isid : bytes) (tsih cid cmd_sn exp_stat_sn : Z)
      (params : str) (text : bytes) :
  encode_utf8 params = Ok text ->
  exists t,
    length t = (41 + length isid)%nat
    /\ create_login_pdu isid tsih cid cmd_sn exp_stat_sn params
       = (bhs <- pack_into_H (b8 (Z.lor 0x03 0x40) :: t) 14 tsih ;;
          bhs <- pack_into_I bhs 16 cmd_sn ;;
          bhs <- pack_into_H bhs 20 cid ;;
          bhs <- pack_into_I bhs 24 cmd_sn ;;
          bhs <- pack_into_I bhs 28 exp_stat_sn ;;
          Ok (bhs ++ pad_loop text)).
Proof.
  intros Henc.
  unfold create_login_pdu. rewrite Henc. cbn [Py.bind].
  generalize (Z.of_nat (length (pad_loop text))) as dl.
  generalize (pad_loop text) as padded. intros padded dl.
  repeat (rewrite setitem_ok
            by (first [ apply land_255_range | cbn; lia ]);
          cbn [Py.bind firstn skipn repeat app]).
  cbn [setslice firstn skipn app Nat.max].
  eexists. split; [|reflexivity].
  cbn [length]. rewrite length_app. cbn [length]. lia.
Qed.

Lemma pack_into_H_refuses (buf : bytes) (offset : nat) (v : Z) :
  ~ 0 <= v <= 0xFFFF ->
  pack_into_H buf offset v
  = Raise (Exception struct_error "'H' format requires 0 <= number <= 65535").
Proof.
  intros Hv. unfold pack_into_H.
  destruct (Z.ltb_spec v 0); [reflexivity|].
  destruct (Z.ltb_spec 0xFFFF v); [reflexivity|]. lia.
Qed.

Lemma pack_into_I_refuses (buf : bytes) (offset : nat) (v : Z) :
  ~ 0 <= v <= 0xFFFFFFFF ->
  pack_into_I buf offset v
  = Raise (Exception struct_error
             "'I' format requires 0 <= number <= 4294967295").
Proof.
  intros Hv. unfold pack_into_I.
  destruct (Z.ltb_spec v 0); [reflexivity|].
  destruct (Z.ltb_spec 0xFFFFFFFF v); [reflexivity|]. lia.
Qed.

Lemma range_dec (lo hi v : Z) : {lo <= v <= hi} + {~ lo <= v <= hi}.
Proof.
  destruct (Z_le_dec lo v), (Z_le_dec v hi); (left; lia) || (right; lia).
Qed.

(** The pack calls succeed exactly when the four numbers fit, and keep the
    length of the buffer; otherwise the first one that does not fit raises
    [struct.error]. *)
Lemma packs_outcome (h : byte) (t padded : bytes)
      (tsih cid cmd_sn exp_stat_sn : Z) :
  (41 <= length t)%nat ->
  let run :=
    (bhs <- pack_into_H (h :: t) 14 tsih ;;
     bhs <- pack_into_I bhs 16 cmd_sn ;;
     bhs <- pack_into_H bhs 20 cid ;;
     bhs <- pack_into_I bhs 24 cmd_sn ;;
     bhs <- pack_into_I bhs 28 exp_stat_sn ;;
     Ok (bhs ++ padded)) in
  ((0 <= tsih <= 0xFFFF /\ 0 <= cid <= 0xFFFF
    /\ 0 <= cmd_sn <= 0xFFFFFFFF /\ 0 <= exp_stat_sn <= 0xFFFFFFFF)
   /\ exists t', run = Ok (h :: t' ++ padded) /\ length t' = length t)
  \/ (~ (0 <= tsih <= 0xFFFF /\ 0 <= cid <= 0xFFFF
         /\ 0 <= cmd_sn <= 0xFFFFFFFF /\ 0 <= exp_stat_sn <= 0xFFFFFFFF)
      /\ exists text, run = Raise (Exception struct_error text)).
Proof.
  intros Hl run. subst run.
  destruct (range_dec 0 0xFFFF tsih) as [Ht|Ht];
    [|right; split; [tauto|]; rewrite pack_into_H_refuses by assumption;
      eexists; reflexivity].
  destruct (pack_into_H_cons h t 13 tsih Ht ltac:(lia)) as (t1 & E1 & L1).
  rewrite E1; cbn [Py.bind].
  destruct (range_dec 0 0xFFFFFFFF cmd_sn) as [Hs|Hs];
    [|right; split; [tauto|]; rewrite pack_into_I_refuses by assumption;
      eexists; reflexivity].
  destruct (pack_into_I_cons h t1 15 cmd_sn Hs ltac:(lia)) as (t2 & E2 & L2).
  rewrite E2; cbn [Py.bind].
  destruct (range_dec 0 0xFFFF cid) as [Hc|Hc];
    [|right; split; [tauto|]; rewrite pack_into_H_refuses by assumption;
      eexists; reflexivity].
  destruct (pack_into_H_cons h t2 19 cid Hc ltac:(lia)) as (t3 & E3 & L3).
  rewrite E3; cbn [Py.bind].
  destruct (pack_into_I_cons h t3 23 cmd_sn Hs ltac:(lia)) as (t4 & E4 & L4).
  rewrite E4; cbn [Py.bind].
  destruct (range_dec 0 0xFFFFFFFF exp_stat_sn) as [He|He];
    [|right; split; [tauto|]; rewrite pack_into_I_refuses by assumption;
      eexists; reflexivity].
  destruct (pack_into_I_cons h t4 27 exp_stat_sn He ltac:(lia))
    as (t5 & E5 & L5).
  rewrite E5; cbn [Py.bind].
  left. split; [tauto|]. exists t5. split; [reflexivity | lia].
Qed.

Lemma encode_char_surrogate (c : Z) :
  code_point c = true -> scalar_value c = false ->
  encode_char c
  = Raise (Exception UnicodeEncodeError "surrogates not allowed").
Proof.
  unfold code_point, scalar_value, encode_char. intros Hc Hs.
  apply andb_true_iff in Hc as [H0 H1].
  apply Z.leb_le in H0. apply Z.leb_le in H1.
  apply orb_false_iff in Hs as [Ha Hb].
  apply andb_false_iff in Ha. apply andb_false_iff in Hb.
  assert (0xD800 <= c <= 0xDFFF).
  { destruct Ha as [Ha|Ha], Hb as [Hb|Hb];
      rewrite ?Z.leb_gt, ?Z.ltb_ge in *; lia. }
  destruct (Z.ltb_spec c 0); [lia|].
  destruct (Z.ltb_spec 0x10FFFF c); [lia|].
  destruct (Z.ltb_spec c 0x80); [lia|].
  destruct (Z.ltb_spec c 0x800); [lia|].
  destruct (Z.ltb_spec c 0x10000); [|lia].
  destruct (Z.leb_spec 0xD800 c); [|lia].
  destruct (Z.leb_spec c 0xDFFF); [|lia].
  reflexivity.
Qed.

Lemma encode_utf8_surrogate (s : str) :
  forallb code_point s = true -> encodable s = false ->
  encode_utf8 s
  = Raise (Exception UnicodeEncodeError "surrogates not allowed").
Proof.
  induction s as [|c s IH]; [discriminate|].
  cbn [forallb encodable]. intros Hv He.
  apply andb_true_iff in Hv as [Hc Hs].
  cbn [encode_utf8].
  destruct (scalar_value c) eqn:Esc.
  - destruct (encode_char_scalar c Esc) as [bs Hbs]. rewrite Hbs.
    cbn [Py.bind]. rewrite IH by assumption. reflexivity.
  - rewrite encode_char_surrogate by assumption. reflexivity.
Qed.

End EncoderDomain.

(** ** Further properties of the encoder *)

Section EncoderProperties.

Lemma create_login_pdu_encode_error (isid : bytes)
      (tsih cid cmd_sn exp_stat_sn : Z) (params : str) (e : exn) :
  encode_utf8 params = Raise e ->
  create_login_pdu isid tsih cid cmd_sn exp_stat_sn params = Raise e.
Proof.
  intros H. unfold create_login_pdu. rewrite H. reflexivity.
Qed.

(** What the encoder does, for any [isid]: with the text encoded, it
    returns when the numbers fit and raises [struct.error] when not. *)
Lemma create_login_pdu_outcome (isid : bytes)
      (tsih cid cmd_sn exp_stat_sn : Z) (params : str) (text : bytes) :
  encode_utf8 params = Ok text ->
  (fields_fit tsih cid cmd_sn exp_stat_sn
   /\ exists t',
       create_login_pdu isid tsih cid cmd_sn exp_stat_sn params
       = Ok (b8 (Z.lor 0x03 0x40) :: t' ++ pad_loop text)
       /\ length t' = (41 + length isid)%nat)
  \/ (~ fields_fit tsih cid cmd_sn exp_stat_sn
      /\ exists msg,
          create_login_pdu isid tsih cid cmd_sn exp_stat_sn params
          = Raise (Exception struct_error msg)).
Proof.
  intros Henc.
  destruct (create_login_pdu_packs isid tsih cid cmd_sn exp_stat_sn params
              text Henc) as (t & Lt & ->).
  destruct (packs_outcome (b8 (Z.lor 3 64)) t (pad_loop text)
              tsih cid cmd_sn exp_stat_sn ltac:(lia))
    as [(Hfit & t' & E & L) | (Hfit & msg & E)].
  - left. split; [exact Hfit|]. exists t'. split; [exact E | lia].
  - right. split; [exact Hfit|]. exists msg. exact E.
Qed.

(** X1. The bytes of the header the encoder does not assign stay zero:
    bytes 2-3, 22-23 and 32-47. *)
Theorem create_login_pdu_reserved_zero
        (isid : bytes) (tsih cid cmd_sn exp_stat_sn : Z) (params : str) :
  length isid = 6%nat ->
  0 <= tsih <= 0xFFFF -> 0 <= cid <= 0xFFFF ->
  0 <= cmd_sn <= 0xFFFFFFFF -> 0 <= exp_stat_sn <= 0xFFFFFFFF ->
  encodable params = true ->
  exists pdu,
    create_login_pdu isid tsih cid cmd_sn exp_stat_sn params = Ok pdu
    /\ slice pdu 2 4 = [x00; x00]
    /\ slice pdu 22 24 = [x00; x00]
    /\ slice pdu 32 48 = repeat x00 16.
Proof.
  intros Hisid Ht Hc Hs He Henc.
  destruct (create_login_pdu_shape isid tsih cid cmd_sn exp_stat_sn params)
    as (text & _ & Hpdu); try assumption.
  eexists. split; [exact Hpdu|].
  destruct isid as [|i0 [|i1 [|i2 [|i3 [|i4 [|i5 [|i6 isid]]]]]]];
    try discriminate Hisid.
  repeat split.
Qed.

Lemma create_login_pdu_reserved_zero_witness :
  exists pdu,
    create_login_pdu [x01; x02; x03; x04; x05; x06] 0xFFFF 0xFFFF
                     0xFFFFFFFF 0xFFFFFFFF (lit "AuthMethod=None" ++ [0])
    = Ok pdu
    /\ slice pdu 2 4 = [x00; x00]
    /\ slice pdu 22 24 = [x00; x00]
    /\ slice pdu 32 48 = repeat x00 16.
Proof.
  apply create_login_pdu_reserved_zero;
    [reflexivity | lia | lia | lia | lia | reflexivity].
Defined.

(** X2. The encoder does not check the length of [isid]: for an [isid] of
    any length it returns a message of 42 bytes plus the length of [isid]
    plus the padded text, so that the header has 48 bytes only for a
    6-byte [isid]. *)
Theorem create_login_pdu_length_any_isid
        (isid : bytes) (tsih cid cmd_sn exp_stat_sn : Z) (params : str) :
  0 <= tsih <= 0xFFFF -> 0 <= cid <= 0xFFFF ->
  0 <= cmd_sn <= 0xFFFFFFFF -> 0 <= exp_stat_sn <= 0xFFFFFFFF ->
  encodable params = true ->
  exists text pdu,
    encode_utf8 params = Ok text
    /\ create_login_pdu isid tsih cid cmd_sn exp_stat_sn params = Ok pdu
    /\ length pdu
       = (42 + length isid
          + (length text + (4 - length text mod 4) mod 4))%nat.
Proof.
  intros Ht Hc Hs He Henc.
  destruct (encode_utf8_total params Henc) as [text Htext].
  destruct (create_login_pdu_outcome isid tsih cid cmd_sn exp_stat_sn
              params text Htext)
    as [(_ & t' & E & L) | (Hfit & _)];
    [|exfalso; apply Hfit; unfold fields_fit; tauto].
  exists text. eexists. split; [exact Htext|]. split; [exact E|].
  cbn [length]. rewrite length_app, L, pad_loop_spec, length_app,
    repeat_length. lia.
Qed.

Lemma create_login_pdu_length_any_isid_witness :
  exists text pdu,
    encode_utf8 (lit "a=b" ++ [0]) = Ok text
    /\ create_login_pdu [x01; x02; x03] 0 0 0 0 (lit "a=b" ++ [0]) = Ok pdu
    /\ length pdu
       = (42 + length [x01; x02; x03]
          + (length text + (4 - length text mod 4) mod 4))%nat.
Proof.
  apply create_login_pdu_length_any_isid;
    [lia | lia | lia | lia | reflexivity].
Defined.

(** X3. When the encoder returns and when it raises, for any [isid]: it
    returns exactly when the string has no surrogate and the four numbers
    fit their fields; a surrogate raises [UnicodeEncodeError] whatever the
    numbers are, and with the string encoded a number that does not fit
    raises [struct.error]. *)
Theorem create_login_pdu_returns_iff
        (isid : bytes) (tsih cid cmd_sn exp_stat_sn : Z) (params : str) :
  forallb code_point params = true ->
  ((exists pdu,
       create_login_pdu isid tsih cid cmd_sn exp_stat_sn params = Ok pdu)
   <-> encodable params = true /\ fields_fit tsih cid cmd_sn exp_stat_sn)
  /\ (encodable params = false ->
      create_login_pdu isid tsih cid cmd_sn exp_stat_sn params
      = Raise (Exception UnicodeEncodeError "surrogates not allowed"))
  /\ (encodable params = true ->
      ~ fields_fit tsih cid cmd_sn exp_stat_sn ->
      exists msg,
        create_login_pdu isid tsih cid cmd_sn exp_stat_sn params
        = Raise (Exception struct_error msg)).
Proof.
  intros Hcp.
  assert (Hsur : encodable params = false ->
                 create_login_pdu isid tsih cid cmd_sn exp_stat_sn params
                 = Raise (Exception UnicodeEncodeError
                            "surrogates not allowed")).
  { intros Hne. apply create_login_pdu_encode_error.
    apply encode_utf8_surrogate; assumption. }
  assert (Hnum : encodable params = true ->
                 ~ fields_fit tsih cid cmd_sn exp_stat_sn ->
                 exists msg,
                   create_login_pdu isid tsih cid cmd_sn exp_stat_sn params
                   = Raise (Exception struct_error msg)).
  { intros Henc Hfit.
    destruct (encode_utf8_total params Henc) as [text Htext].
    destruct (create_login_pdu_outcome isid tsih cid cmd_sn exp_stat_sn
                params text Htext) as [(Hf & _) | (_ & msg & E)];
      [contradiction | exists msg; exact E]. }
  split; [|split; assumption].
  split.
  - intros [pdu Hpdu].
    destruct (encodable params) eqn:Henc.
    + split; [reflexivity|].
      destruct (encode_utf8_total params Henc) as [text Htext].
      destruct (create_login_pdu_outcome isid tsih cid cmd_sn exp_stat_sn
                  params text Htext) as [(Hf & _) | (_ & msg & E)];
        [exact Hf | rewrite E in Hpdu; discriminate].
    + rewrite (Hsur eq_refl) in Hpdu. discriminate.
  - intros [Henc Hfit].
    destruct (encode_utf8_total params Henc) as [text Htext].
    destruct (create_login_pdu_outcome isid tsih cid cmd_sn exp_stat_sn
                params text Htext) as [(_ & t' & E & _) | (Hf & _)];
      [eexists; exact E | contradiction].
Qed.

Lemma create_login_pdu_returns_iff_witness :
  ((exists pdu,
       create_login_pdu [x01; x02; x03; x04; x05; x06] 0 0x10000 0 0
                        [0x61; 0xD800] = Ok pdu)
   <-> encodable [0x61; 0xD800] = true /\ fields_fit 0 0x10000 0 0)
  /\ (encodable [0x61; 0xD800] = false ->
      create_login_pdu [x01; x02; x03; x04; x05; x06] 0 0x10000 0 0
                       [0x61; 0xD800]
      = Raise (Exception UnicodeEncodeError "surrogates not allowed"))
  /\ (encodable [0x61; 0xD800] = true ->
      ~ fields_fit 0 0x10000 0 0 ->
      exists msg,
        create_login_pdu [x01; x02; x03; x04; x05; x06] 0 0x10000 0 0
                         [0x61; 0xD800]
        = Raise (Exception struct_error msg)).
Proof.
  apply create_login_pdu_returns_iff. reflexivity.
Defined.

End EncoderProperties.

(** ** The payload and the fields of a request *)

Section EncoderPayload.

Lemma encode_utf8_ascii (s : str) :
  forallb ascii_char s = true -> encode_utf8 s = Ok (map b8 s).
Proof.
  induction s as [|c s IH]; [reflexivity|].
  cbn [forallb]. intros H. apply andb_true_iff in H as [Hc Hs].
  unfold ascii_char in Hc. apply andb_true_iff in Hc as [H0 H1].
  apply Z.leb_le in H0. apply Z.ltb_lt in H1.
  cbn [encode_utf8 map]. unfold encode_char.
  destruct (Z.ltb_spec c 0); [lia|].
  destruct (Z.ltb_spec 0x10FFFF c); [lia|].
  destruct (Z.ltb_spec c 0x80); [|lia].
  cbn [orb Py.bind]. rewrite (IH Hs). reflexivity.
Qed.

Lemma ascii_encodable (s : str) :
  forallb ascii_char s = true -> encodable s = true.
Proof.
  induction s as [|c s IH]; [reflexivity|].
  cbn [forallb encodable]. intros H. apply andb_true_iff in H as [Hc Hs].
  apply andb_true_iff. split; [|exact (IH Hs)].
  unfold ascii_char in Hc. apply andb_true_iff in Hc as [H0 H1].
  apply Z.leb_le in H0. apply Z.ltb_lt in H1.
  unfold scalar_value.
  destruct (Z.leb_spec 0 c); [|lia].
  destruct (Z.ltb_spec c 0xD800); [reflexivity | lia].
Qed.

Lemma encode_utf8_snoc_null (s : str) (text : bytes) :
  encode_utf8 s = Ok text -> encode_utf8 (s ++ [0]) = Ok (text ++ [x00]).
Proof.
  revert text. induction s as [|c s IH]; intros text H.
  - injection H as <-. reflexivity.
  - cbn [app encode_utf8] in *.
    destruct (encode_char c) as [bs|e]; [|discriminate].
    cbn [Py.bind] in *.
    destruct (encode_utf8 s) as [rest|e]; [|discriminate].
    cbn [Py.bind] in *. injection H as <-.
    rewrite (IH rest eq_refl). cbn [Py.bind].
    rewrite app_assoc. reflexivity.
Qed.

Lemma pad_loop_snoc_null (text : bytes) :
  (length text mod 4 <> 0)%nat -> pad_loop (text ++ [x00]) = pad_loop text.
Proof.
  intros H. rewrite !pad_loop_spec, length_app. cbn [length].
  rewrite (pad_gap_step (length text) H). cbn [repeat].
  rewrite <- app_assoc. reflexivity.
Qed.

(** X4. For a parameter string of ASCII characters, each character is one
    byte of the payload, its code, and the payload is these bytes followed
    by the null bytes that bring the length to the next multiple of 4. *)
Theorem create_login_pdu_ascii_payload
        (isid : bytes) (tsih cid cmd_sn exp_stat_sn : Z) (params : str) :
  length isid = 6%nat ->
  0 <= tsih <= 0xFFFF -> 0 <= cid <= 0xFFFF ->
  0 <= cmd_sn <= 0xFFFFFFFF -> 0 <= exp_stat_sn <= 0xFFFFFFFF ->
  forallb ascii_char params = true ->
  exists pdu,
    create_login_pdu isid tsih cid cmd_sn exp_stat_sn params = Ok pdu
    /\ skipn 48 pdu
       = map b8 params ++ repeat x00 ((4 - length params mod 4) mod 4)
    /\ (forall i c, nth_error params i = Some c ->
                    getitem pdu (48 + i) = Ok c).
Proof.
  intros Hisid Ht Hc Hs He Hascii.
  pose proof (encode_utf8_ascii params Hascii) as Henc.
  eexists. split.
  { apply create_login_pdu_eq; eassumption. }
  rewrite skipn_header by (apply spec_header_length; assumption).
  split.
  { rewrite pad_loop_spec, length_map. reflexivity. }
  intros i c Hi. unfold getitem.
  rewrite nth_error_app2
    by (rewrite spec_header_length by assumption; lia).
  rewrite spec_header_length by assumption.
  replace (48 + i - 48)%nat with i by lia.
  rewrite pad_loop_spec.
  assert (Hlt : (i < length params)%nat)
    by (apply nth_error_Some; rewrite Hi; discriminate).
  rewrite nth_error_app1 by (rewrite length_map; exact Hlt).
  rewrite nth_error_map, Hi. cbn [option_map].
  rewrite byte_to_Z_b8, land_255.
  assert (Hin : In c params) by (eapply nth_error_In; exact Hi).
  pose proof (proj1 (forallb_forall ascii_char params) Hascii c Hin) as Hc'.
  unfold ascii_char in Hc'. apply andb_true_iff in Hc' as [H0 H1].
  apply Z.leb_le in H0. apply Z.ltb_lt in H1.
  rewrite Z.mod_small by lia. reflexivity.
Qed.

Lemma create_login_pdu_ascii_payload_witness :
  exists pdu,
    create_login_pdu [x01; x02; x03; x04; x05; x06] 0 0 0 0
                     (lit "AuthMethod=None" ++ [0]) = Ok pdu
    /\ skipn 48 pdu
       = map b8 (lit "AuthMethod=None" ++ [0])
           ++ repeat x00
                ((4 - length (lit "AuthMethod=None" ++ [0]) mod 4) mod 4)
    /\ (forall i c, nth_error (lit "AuthMethod=None" ++ [0]) i = Some c ->
                    getitem pdu (48 + i) = Ok c).
Proof.
  apply create_login_pdu_ascii_payload;
    [reflexivity | lia | lia | lia | lia | reflexivity].
Defined.

(** X5. The padding cannot be told from a null character that ends the
    text: when the encoded text is not a multiple of 4 bytes long, the
    string and the string with one more null character give the same
    result, whatever the other arguments are. *)
Theorem create_login_pdu_trailing_null
        (isid : bytes) (tsih cid cmd_sn exp_stat_sn : Z) (params : str)
        (text : bytes) :
  encode_utf8 params = Ok text ->
  (length text mod 4 <> 0)%nat ->
  create_login_pdu isid tsih cid cmd_sn exp_stat_sn (params ++ [0])
  = create_login_pdu isid tsih cid cmd_sn exp_stat_sn params.
Proof.
  intros Henc Hlen. unfold create_login_pdu.
  rewrite (encode_utf8_snoc_null params text Henc), Henc.
  cbn [Py.bind]. rewrite (pad_loop_snoc_null text Hlen). reflexivity.
Qed.

Lemma create_login_pdu_trailing_null_witness :
  create_login_pdu [x01; x02; x03; x04; x05; x06] 0 0 0 0
                   (lit "AuthMethod=None" ++ [0])
  = create_login_pdu [x01; x02; x03; x04; x05; x06] 0 0 0 0
                     (lit "AuthMethod=None").
Proof.
  apply (create_login_pdu_trailing_null _ _ _ _ _ _
           (map b8 (lit "AuthMethod=None")));
    [reflexivity | vm_compute; discriminate].
Defined.

Lemma app_inv_length {A} (a b c d : list A) :
  length a = length c -> a ++ b = c ++ d -> a = c /\ b = d.
Proof.
  revert c. induction a as [|x a IH]; intros [|y c] Hl H;
    try discriminate Hl.
  - split; [reflexivity | exact H].
  - cbn [app] in H. injection H as -> H. injection Hl as Hl.
    destruct (IH c Hl H) as [-> ->]. split; reflexivity.
Qed.

Lemma Ok_inj {A} (a b : A) : Ok a = Ok b -> a = b.
Proof. intros H. injection H as H. exact H. Qed.

Lemma create_login_pdu_ok_inv (isid : bytes) (tsih cid cmd_sn exp_stat_sn : Z)
      (params : str) (pdu : bytes) :
  create_login_pdu isid tsih cid cmd_sn exp_stat_sn params = Ok pdu ->
  fields_fit tsih cid cmd_sn exp_stat_sn
  /\ exists text, encode_utf8 params = Ok text.
Proof.
  intros H.
  destruct (encode_utf8 params) as [text|e] eqn:Henc.
  - destruct (create_login_pdu_outcome isid tsih cid cmd_sn exp_stat_sn
                params text Henc) as [(Hf & _) | (_ & msg & E)].
    + split; [exact Hf | exists text; reflexivity].
    + rewrite E in H. discriminate.
  - rewrite (create_login_pdu_encode_error _ _ _ _ _ _ _ Henc) in H.
    discriminate.
Qed.

(** X6. The header fields can be read back from a request: two calls with
    6-byte identifiers that return the same bytes were given the same
    identifier, continuation tag, connection identifier and sequence
    numbers, and their padded texts are the same. *)
Theorem create_login_pdu_fields_recoverable
        (isid isid' : bytes) (tsih cid cmd_sn exp_stat_sn : Z)
        (tsih' cid' cmd_sn' exp_stat_sn' : Z) (params params' : str)
        (pdu : bytes) :
  length isid = 6%nat -> length isid' = 6%nat ->
  create_login_pdu isid tsih cid cmd_sn exp_stat_sn params = Ok pdu ->
  create_login_pdu isid' tsih' cid' cmd_sn' exp_stat_sn' params' = Ok pdu ->
  isid = isid' /\ tsih = tsih' /\ cid = cid' /\ cmd_sn = cmd_sn'
  /\ exp_stat_sn = exp_stat_sn'
  /\ exists text text',
      encode_utf8 params = Ok text /\ encode_utf8 params' = Ok text'
      /\ pad_loop text = pad_loop text'.
Proof.
  intros Hl Hl' H H'.
  destruct (create_login_pdu_ok_inv _ _ _ _ _ _ _ H)
    as ((Ht & Hc & Hs & He) & text & Henc).
  destruct (create_login_pdu_ok_inv _ _ _ _ _ _ _ H')
    as ((Ht' & Hc' & Hs' & He') & text' & Henc').
  rewrite (create_login_pdu_eq isid tsih cid cmd_sn exp_stat_sn params text)
    in H by assumption.
  rewrite (create_login_pdu_eq isid' tsih' cid' cmd_sn' exp_stat_sn' params'
             text') in H' by assumption.
  rewrite <- H' in H. clear H'. apply Ok_inj in H.
  apply app_inv_length in H as [Hh Hp];
    [|rewrite !spec_header_length by assumption; reflexivity].
  destruct isid as [|i0 [|i1 [|i2 [|i3 [|i4 [|i5 [|i6 isid]]]]]]];
    try discriminate Hl.
  destruct isid' as [|j0 [|j1 [|j2 [|j3 [|j4 [|j5 [|j6 isid']]]]]]];
    try discriminate Hl'.
  unfold spec_header in Hh. cbn [app] in Hh.
  assert (E16t : be16 tsih = be16 tsih').
  { unfold be16 in *. cbn [app] in Hh. congruence. }
  assert (E16c : be16 cid = be16 cid').
  { unfold be16, be32 in *. cbn [app] in Hh. congruence. }
  assert (E32s : be32 cmd_sn = be32 cmd_sn').
  { unfold be16, be32 in *. cbn [app] in Hh. congruence. }
  assert (E32e : be32 exp_stat_sn = be32 exp_stat_sn').
  { unfold be16, be32 in *. cbn [app] in Hh. congruence. }
  split; [congruence|].
  split; [rewrite <- (be_value_be16 tsih Ht), <- (be_value_be16 tsih' Ht');
          congruence|].
  split; [rewrite <- (be_value_be16 cid Hc), <- (be_value_be16 cid' Hc');
          congruence|].
  split; [rewrite <- (be_value_be32 cmd_sn Hs),
            <- (be_value_be32 cmd_sn' Hs'); congruence|].
  split; [rewrite <- (be_value_be32 exp_stat_sn He),
            <- (be_value_be32 exp_stat_sn' He'); congruence|].
  exists text, text'. repeat split; assumption.
Qed.

End EncoderPayload.

Section EncoderPayloadWitness.

Lemma create_login_pdu_fields_recoverable_witness :
  [x01; x02; x03; x04; x05; x06] = [x01; x02; x03; x04; x05; x06]
  /\ 0x0a0b = 0x0a0b /\ 0x0c0d = 0x0c0d /\ 0x01020304 = 0x01020304
  /\ 0x05060708 = 0x05060708
  /\ exists text text',
      encode_utf8 (lit "k=v1" ++ [0]) = Ok text
      /\ encode_utf8 (lit "k=v1" ++ [0]) = Ok text'
      /\ pad_loop text = pad_loop text'.
Proof.
  apply (create_login_pdu_fields_recoverable _ _ _ _ _ _ _ _ _ _ _ _
           ([x43; x83; x00; x00; x00; x00; x00; x08;
             x01; x02; x03; x04; x05; x06; x0a; x0b;
             x01; x02; x03; x04; x0c; x0d; x00; x00;
             x01; x02; x03; x04; x05; x06; x07; x08]
              ++ repeat x00 16
              ++ [x6b; x3d; x76; x31; x00; x00; x00; x00]));
    [reflexivity | reflexivity
     | vm_compute; reflexivity | vm_compute; reflexivity].
Defined.

End EncoderPayloadWitness.

(** ** Further properties of the decoder *)

Section DecoderProperties.

Lemma Some_inj {A} (a b : A) : Some a = Some b -> a = b.
Proof. intros H. injection H as H. exact H. Qed.

Lemma inr_inj {A B} (a b : B) : @inr A B a = inr b -> a = b.
Proof. intros H. injection H as H. exact H. Qed.

Lemma lor_shiftl_8 (c d : Z) :
  0 <= d < 256 -> Z.lor (Z.shiftl c 8) d = c * 256 + d.
Proof.
  intros Hd.
  assert (Hland : Z.land (Z.shiftl c 8) d = 0).
  { apply Z.bits_inj'. intros n Hn.
    rewrite Z.land_spec, Z.bits_0.
    destruct (Z.ltb_spec n 8) as [Hlt|Hge].
    - rewrite Z.shiftl_spec_low by lia. reflexivity.
    - replace d with (d mod 2 ^ 8)
        by (apply Z.mod_small; change (2 ^ 8) with 256; lia).
      rewrite Z.mod_pow2_bits_high by lia. apply andb_false_r. }
  rewrite <- Z.lxor_lor by exact Hland.
  rewrite <- Z.add_nocarry_lxor by exact Hland.
  rewrite Z.shiftl_mul_pow2 by lia. reflexivity.
Qed.

(** X7. The decoder looks at three bytes only: two buffers of at least 48
    bytes that agree on the low six bits of byte 0 and on bytes 36 and 37
    decode to the same result, whatever the flag bits of byte 0 and the
    other bytes are. *)
Theorem parse_login_response_reads_three_bytes (data data' : bytes) :
  (48 <= length data)%nat -> (48 <= length data')%nat ->
  option_map (fun b => Z.land (byte_to_Z b) 0x3F) (nth_error data 0)
  = option_map (fun b => Z.land (byte_to_Z b) 0x3F) (nth_error data' 0) ->
  nth_error data 36 = nth_error data' 36 ->
  nth_error data 37 = nth_error data' 37 ->
  parse_login_response data = parse_login_response data'.
Proof.
  intros Hl Hl' H0 H36 H37.
  destruct (parse_login_response_long data Hl)
    as (b0 & c & d & N0 & N36 & N37 & Hp).
  destruct (parse_login_response_long data' Hl')
    as (b0' & c' & d' & N0' & N36' & N37' & Hp').
  rewrite Hp, Hp'.
  rewrite N0, N0' in H0. cbn [option_map] in H0. injection H0 as H0.
  rewrite N36, N36' in H36. injection H36 as <-.
  rewrite N37, N37' in H37. injection H37 as <-.
  rewrite H0. reflexivity.
Qed.

Lemma parse_login_response_reads_three_bytes_witness :
  parse_login_response
    (x23 :: repeat x00 35 ++ [x02; x03] ++ repeat x00 10)
  = parse_login_response
      (xe3 :: repeat x11 35 ++ [x02; x03] ++ repeat xff 500).
Proof.
  apply parse_login_response_reads_three_bytes;
    [cbn; lia | cbn; lia | reflexivity | reflexivity | reflexivity].
Defined.

(** X8. Bytes after the 48-byte header are ignored: appending anything to
    a buffer of at least 48 bytes, or cutting it down to its first 48
    bytes, does not change what the decoder returns. *)
Theorem parse_login_response_ignores_tail (data extra : bytes) :
  (48 <= length data)%nat ->
  parse_login_response (data ++ extra) = parse_login_response data
  /\ parse_login_response (firstn 48 data) = parse_login_response data.
Proof.
  intros Hl.
  destruct (parse_login_response_long data Hl)
    as (b0 & c & d & N0 & N36 & N37 & Hp).
  split.
  - destruct (parse_login_response_long (data ++ extra)
                ltac:(rewrite length_app; lia))
      as (b0' & c' & d' & N0' & N36' & N37' & Hp').
    rewrite nth_error_app1 in N0', N36', N37' by lia.
    rewrite N0 in N0'. rewrite N36 in N36'. rewrite N37 in N37'.
    injection N0' as <-. injection N36' as <-. injection N37' as <-.
    rewrite Hp, Hp'. reflexivity.
  - destruct (parse_login_response_long (firstn 48 data)
                ltac:(rewrite length_firstn; lia))
      as (b0' & c' & d' & N0' & N36' & N37' & Hp').
    rewrite nth_error_firstn in N0', N36', N37'.
    cbn [Nat.ltb Nat.leb] in N0', N36', N37'.
    rewrite N0 in N0'. rewrite N36 in N36'. rewrite N37 in N37'.
    injection N0' as <-. injection N36' as <-. injection N37' as <-.
    rewrite Hp, Hp'. reflexivity.
Qed.

Lemma parse_login_response_ignores_tail_witness :
  parse_login_response
    ((x23 :: repeat x00 35 ++ [x02; x07] ++ repeat x00 10)
       ++ [x41; x3d; x42; x00])
  = parse_login_response
      (x23 :: repeat x00 35 ++ [x02; x07] ++ repeat x00 10)
  /\ parse_login_response
       (firstn 48 (x23 :: repeat x00 35 ++ [x02; x07] ++ repeat x00 10))
     = parse_login_response
         (x23 :: repeat x00 35 ++ [x02; x07] ++ repeat x00 10).
Proof.
  apply parse_login_response_ignores_tail. cbn. lia.
Defined.

(** X9. What the decoder returns is well formed: the opcode is 0x23, the
    status class and detail are bytes, the status code is
    256 * class + detail, at most 0xFFFF, and class and detail are its high
    and low byte; the code is 0 only when both are 0. *)
Theorem parse_login_response_result_ranges
        (data : bytes) (r : login_response) :
  parse_login_response data = Ok (Some r) ->
  opcode r = 0x23
  /\ 0 <= status_class r <= 255
  /\ 0 <= status_detail r <= 255
  /\ status_code r = 256 * status_class r + status_detail r
  /\ 0 <= status_code r <= 0xFFFF
  /\ status_class r = status_code r / 256
  /\ status_detail r = status_code r mod 256
  /\ (status_code r = 0 <-> status_class r = 0 /\ status_detail r = 0).
Proof.
  intros H.
  destruct (Nat.lt_ge_cases (length data) 48) as [Hs|Hl].
  { rewrite (parse_login_response_short data Hs) in H. discriminate. }
  destruct (parse_login_response_long data Hl)
    as (b0 & c & d & _ & _ & _ & Hp).
  rewrite Hp in H.
  destruct (Z.eqb_spec (Z.land (byte_to_Z b0) 63) 35) as [E|NE];
    cbn [negb] in H; [|discriminate].
  apply Ok_inj in H. apply Some_inj in H. subst r.
  cbn [opcode status_class status_detail status_code].
  pose proof (byte_to_Z_range c) as Hc.
  pose proof (byte_to_Z_range d) as Hd.
  rewrite lor_shiftl_8 by lia.
  split; [exact E|]. split; [exact Hc|]. split; [exact Hd|].
  split; [lia|]. split; [lia|].
  split; [|split].
  - apply (Z.div_unique _ 256 _ (byte_to_Z d)); lia.
  - apply (Z.mod_unique _ 256 (byte_to_Z c)); lia.
  - lia.
Qed.

Lemma parse_login_response_result_ranges_witness :
  opcode {| opcode := 0x23; status_class := 2; status_detail := 3;
            status_code := 0x0203 |} = 0x23
  /\ 0 <= 2 <= 255
  /\ 0 <= 3 <= 255
  /\ 0x0203 = 256 * 2 + 3
  /\ 0 <= 0x0203 <= 0xFFFF
  /\ 2 = 0x0203 / 256
  /\ 3 = 0x0203 mod 256
  /\ (0x0203 = 0 <-> 2 = 0 /\ 3 = 0).
Proof.
  apply (parse_login_response_result_ranges
           (login_response_bytes x02 x03)
           {| opcode := 0x23; status_class := 2; status_detail := 3;
              status_code := 0x0203 |}).
  vm_compute. reflexivity.
Defined.

End DecoderProperties.

(** ** What a scenario function does, in full *)

Section ScenarioBehaviour.

Local Open Scope run_scope.

Lemma verdict_strict_reports (name expected_text : string) (expected : Z) :
  reports_as (verdict_strict name expected_text expected)
             (strict_report name expected).
Proof.
  intros result w. unfold verdict_strict, strict_report, bind, lift.
  destruct result as [r|]; cbn.
  - destruct (status_code r =? expected); cbn.
    + eexists. split; [reflexivity | apply prints_one].
    + eexists. split; [reflexivity | apply prints_nothing].
  - eexists. split; [reflexivity | apply prints_nothing].
Qed.

Lemma verdict_lenient_reports (name expected_text : string) (expected : Z) :
  reports_as (verdict_lenient name expected_text expected)
             (lenient_report name expected_text expected).
Proof.
  intros result w. unfold verdict_lenient, lenient_report, bind, lift.
  destruct result as [r|]; cbn.
  - destruct (status_code r =? expected); cbn.
    + eexists. split; [reflexivity | apply prints_one].
    + eexists. split; [reflexivity | apply prints_one].
  - eexists. split; [reflexivity | apply prints_one].
Qed.

Ltac settle_after :=
  unfold after, calls; cbn [peers next_fd open_fds events stdout];
  rewrite ?remove_cons, <- ?app_assoc; cbn [app]; reflexivity.

Lemma scenario_behaves (banner : string) (isid : bytes) (params : str)
      (bufsize : nat) (verdict : option login_response -> M bool)
      (rep : report) (pdu : bytes) :
  create_login_pdu isid 0 0 0 0 params = Ok pdu ->
  reports_as verdict rep ->
  behaves (scenario banner isid params bufsize verdict)
          banner isid params bufsize rep.
Proof.
  intros Hpdu Hrep host port w.
  assert (Hreq : request isid params = pdu)
    by (unfold request; rewrite Hpdu; reflexivity).
  rewrite Hreq.
  unfold progress_of.
  unfold scenario, report_failure, bind, print, socket_socket, settimeout,
    try_except_finally, connect, sendall, recv, close, lift, ret, log.
  cbn [peers next_fd open_fds events stdout].
  rewrite Hpdu.
  destruct (connect_outcome (peers w (next_fd w)) host port)
    as [fc|] eqn:Hc; cbn [raise_failure is_Exception summary fst snd exn_text].
  { f_equal. settle_after. }
  destruct (sendall_outcome (peers w (next_fd w)) pdu)
    as [fs|] eqn:Hs; cbn [raise_failure is_Exception summary fst snd exn_text].
  { f_equal. settle_after. }
  destruct (recv_outcome (peers w (next_fd w)) bufsize)
    as [fr|data] eqn:Hr;
    cbn [raise_failure is_Exception summary fst snd exn_text].
  { f_equal. settle_after. }
  destruct (parse_login_response_returns (firstn bufsize data))
    as [result Hparse].
  rewrite Hparse. unfold parsed. rewrite Hparse.
  match goal with
  | |- context [verdict result ?w5] =>
      destruct (Hrep result w5) as (w6 & Hrun & Hpr);
      rewrite Hrun
  end.
  destruct Hpr as (P1 & P2 & P3 & P4 & P5).
  cbn [peers next_fd open_fds events stdout] in P1, P2, P3, P4, P5.
  destruct (rep result) as [[f|v] out];
    cbn [fst snd raise_failure is_Exception handled exn_text] in *.
  - cbn [peers next_fd open_fds events stdout].
    rewrite P1, P2, P3, P4, P5. f_equal. settle_after.
  - rewrite P1, P2, P3, P4, P5. f_equal. settle_after.
Qed.

Lemma request_returns (isid : bytes) (params : str) :
  length isid = 6%nat -> encodable params = true ->
  create_login_pdu isid 0 0 0 0 params = Ok (request isid params).
Proof.
  intros Hl He.
  destruct (create_login_pdu_shape isid 0 0 0 0 params)
    as (text & _ & Hpdu); try assumption; try lia.
  unfold request. rewrite Hpdu. reflexivity.
Qed.

Lemma test_target_not_found_behaves :
  behaves test_target_not_found "Test 1: TARGET_NOT_FOUND (0x0203)..."
          isid_target_not_found params_target_not_found 48
          (strict_report "TARGET_NOT_FOUND" 0x0203).
Proof.
  rewrite test_target_not_found_scenario.
  eapply scenario_behaves;
    [apply (request_returns isid_target_not_found params_target_not_found);
     reflexivity
    | apply verdict_strict_reports].
Qed.

Lemma test_missing_parameter_behaves :
  behaves test_missing_parameter "Test 2: MISSING_PARAMETER (0x0207)..."
          isid_missing_parameter params_missing_parameter 48
          (strict_report "MISSING_PARAMETER" 0x0207).
Proof.
  rewrite test_missing_parameter_scenario.
  eapply scenario_behaves;
    [apply (request_returns isid_missing_parameter params_missing_parameter);
     reflexivity
    | apply verdict_strict_reports].
Qed.

Lemma test_successful_login_behaves :
  behaves test_successful_login "Test 3: SUCCESS (0x0000)..."
          isid_successful_login params_successful_login 1024
          (lenient_report "SUCCESS" "0x0000" 0x0000).
Proof.
  rewrite test_successful_login_scenario.
  eapply scenario_behaves;
    [apply (request_returns isid_successful_login params_successful_login);
     reflexivity
    | apply verdict_lenient_reports].
Qed.

End ScenarioBehaviour.

(** ** What [main] does, in full *)

Section MainBehaviour.

Variable int : str -> result Z.

Local Open Scope run_scope.

Lemma bind_ok {A B} (c : M A) (k : A -> M B) (w w' : world) (a : A) :
  c w = (Ok a, w') -> bind c k w = k a w'.
Proof. intros H. unfold bind. rewrite H. reflexivity. Qed.

(** One scenario function run in a world: its verdict and the world it
    leaves, field by field. *)
Lemma behaves_step (test : str -> Z -> M bool) (banner : string)
      (isid : bytes) (params : str) (bufsize : nat) (rep : report)
      (host : str) (port : Z) (w : world) :
  behaves test banner isid params bufsize rep ->
  exists w',
    test host port w
    = (Ok (fst (summary (progress_of (peers w (next_fd w)) host port
                                     (request isid params) bufsize) rep)),
       w')
    /\ peers w' = peers w
    /\ next_fd w' = S (next_fd w)
    /\ open_fds w' = remove Nat.eq_dec (next_fd w) (open_fds w)
    /\ events w'
       = events w
           ++ calls (next_fd w) host port (request isid params) bufsize
                (progress_of (peers w (next_fd w)) host port
                             (request isid params) bufsize)
    /\ stdout w'
       = stdout w
           ++ line_test banner
           :: snd (summary (progress_of (peers w (next_fd w)) host port
                                        (request isid params) bufsize) rep).
Proof.
  intros H. eexists. split; [apply H|]. repeat split.
Qed.

(** With a host and a port that parses, the run of [main] is determined by
    how far each scenario gets on its socket. *)
Lemma main_outcome (prog host portstr : str) (port : Z) (w : world) :
  int portstr = Ok port ->
  exists wf,
    main int [prog; host; portstr] w
    = (Raise (SystemExit
                (if all [fst (summary
                                (progress_successful_login w host port
                                   (next_fd w))
                                report_successful_login);
                         fst (summary
                                (progress_target_not_found w host port
                                   (S (next_fd w)))
                                report_target_not_found);
                         fst (summary
                                (progress_missing_parameter w host port
                                   (S (S (next_fd w))))
                                report_missing_parameter)]
                 then 0 else 1)), wf)
    /\ open_fds wf
       = remove Nat.eq_dec (S (S (next_fd w)))
           (remove Nat.eq_dec (S (next_fd w))
              (remove Nat.eq_dec (next_fd w) (open_fds w)))
    /\ events wf
       = events w
           ++ calls (next_fd w) host port
                (request isid_successful_login params_successful_login) 1024
                (progress_successful_login w host port (next_fd w))
           ++ calls (S (next_fd w)) host port
                (request isid_target_not_found params_target_not_found) 48
                (progress_target_not_found w host port (S (next_fd w)))
           ++ calls (S (S (next_fd w))) host port
                (request isid_missing_parameter params_missing_parameter) 48
                (progress_missing_parameter w host port (S (S (next_fd w))))
    /\ stdout wf
       = stdout w
           ++ [line_rule; line_title; line_rule; line_target host port;
               line_blank]
           ++ (line_test "Test 3: SUCCESS (0x0000)..."
                 :: snd (summary
                           (progress_successful_login w host port (next_fd w))
                           report_successful_login))
           ++ (line_test "Test 1: TARGET_NOT_FOUND (0x0203)..."
                 :: snd (summary
                           (progress_target_not_found w host port
                              (S (next_fd w)))
                           report_target_not_found))
           ++ (line_test "Test 2: MISSING_PARAMETER (0x0207)..."
                 :: snd (summary
                           (progress_missing_parameter w host port
                              (S (S (next_fd w))))
                           report_missing_parameter))
           ++ [line_blank; line_rule;
               line_results
                 (sum [fst (summary
                              (progress_successful_login w host port
                                 (next_fd w))
                              report_successful_login);
                       fst (summary
                              (progress_target_not_found w host port
                                 (S (next_fd w)))
                              report_target_not_found);
                       fst (summary
                              (progress_missing_parameter w host port
                                 (S (S (next_fd w))))
                              report_missing_parameter)]) 3;
               line_rule].
Proof.
  intros Hport.
  unfold main. cbn [length Nat.eqb negb nth].
  erewrite bind_ok by (unfold lift; rewrite Hport; reflexivity).
  do 5 (erewrite bind_ok by (unfold print; reflexivity)).
  match goal with
  | |- context [bind (test_successful_login host port) _ ?w0] =>
      destruct (behaves_step _ _ _ _ _ _ host port w0
                  test_successful_login_behaves)
        as (w1 & R1 & Pe1 & Nf1 & Of1 & Ev1 & So1)
  end.
  cbn [peers next_fd open_fds events stdout] in Pe1, Nf1, Of1, Ev1, So1.
  erewrite bind_ok by exact R1.
  destruct (behaves_step _ _ _ _ _ _ host port w1
              test_target_not_found_behaves)
    as (w2 & R2 & Pe2 & Nf2 & Of2 & Ev2 & So2).
  rewrite Pe1, Nf1, Of1, Ev1, So1 in *.
  erewrite bind_ok by exact R2.
  destruct (behaves_step _ _ _ _ _ _ host port w2
              test_missing_parameter_behaves)
    as (w3 & R3 & Pe3 & Nf3 & Of3 & Ev3 & So3).
  rewrite Pe2, Nf2, Of2, Ev2, So2 in *.
  erewrite bind_ok by exact R3.
  do 4 (erewrite bind_ok by (unfold print; reflexivity)).
  unfold sys_exit.
  eexists. split; [reflexivity|].
  cbn [peers next_fd open_fds events stdout].
  rewrite Of3, Ev3, So3.
  unfold progress_successful_login, progress_target_not_found,
    progress_missing_parameter, report_successful_login,
    report_target_not_found, report_missing_parameter.
  split; [reflexivity|].
  split.
  - rewrite <- ?app_assoc. reflexivity.
  - cbn [app length Z.of_nat Pos.of_succ_nat Pos.succ].
    rewrite <- ?app_assoc. cbn [app]. rewrite <- ?app_assoc.
    reflexivity.
Qed.

End MainBehaviour.

(** ** Properties of the scenario functions *)

Section ScenarioProperties.

Lemma behaves_fst (test : str -> Z -> M bool) (banner : string)
      (isid : bytes) (params : str) (bufsize : nat) (rep : report)
      (host : str) (port : Z) (w : world) :
  behaves test banner isid params bufsize rep ->
  fst (test host port w)
  = Ok (fst (summary (progress_of (peers w (next_fd w)) host port
                                  (request isid params) bufsize) rep)).
Proof. intros H. rewrite (H host port w). reflexivity. Qed.

Lemma behaves_events (test : str -> Z -> M bool) (banner : string)
      (isid : bytes) (params : str) (bufsize : nat) (rep : report) :
  behaves test banner isid params bufsize rep ->
  makes_calls test isid params bufsize.
Proof.
  intros H host port w. rewrite (H host port w). cbn [snd].
  apply events_since_after.
Qed.

Lemma behaves_stdout (test : str -> Z -> M bool) (banner : string)
      (isid : bytes) (params : str) (bufsize : nat) (rep : report)
      (host : str) (port : Z) (w : world) :
  behaves test banner isid params bufsize rep ->
  stdout (snd (test host port w))
  = stdout w
      ++ line_test banner
      :: snd (summary (progress_of (peers w (next_fd w)) host port
                                   (request isid params) bufsize) rep).
Proof. intros H. rewrite (H host port w). reflexivity. Qed.

Lemma behaves_passes_iff (test : str -> Z -> M bool) (banner : string)
      (isid : bytes) (params : str) (bufsize : nat) (rep : report)
      (expected : Z) :
  behaves test banner isid params bufsize rep ->
  (forall result,
      fst (handled (rep result)) = true
      <-> exists r, result = Some r /\ status_code r = expected) ->
  passes_iff test isid params bufsize expected.
Proof.
  intros Hb Hrep host port w.
  rewrite (behaves_fst _ _ _ _ _ _ host port w Hb).
  unfold progress_of.
  destruct (connect_outcome (peers w (next_fd w)) host port) as [fc|];
    [split; [discriminate | intros (data & r & Hc & _); discriminate]|].
  destruct (sendall_outcome (peers w (next_fd w)) (request isid params))
    as [fs|];
    [split; [discriminate | intros (data & r & _ & Hs & _); discriminate]|].
  destruct (recv_outcome (peers w (next_fd w)) bufsize) as [fr|data];
    [split; [discriminate
            | intros (data & r & _ & _ & Hr & _); discriminate]|].
  cbn [summary]. unfold parsed.
  destruct (parse_login_response_returns (firstn bufsize data))
    as [result Hparse].
  rewrite Hparse.
  split.
  - intros H. apply Ok_inj in H. apply Hrep in H as (r & -> & Hcode).
    exists data, r. repeat split; assumption.
  - intros (data' & r & _ & _ & Hr & Hp & Hcode).
    apply inr_inj in Hr. subst data'.
    rewrite Hparse in Hp. apply Ok_inj in Hp. subst result.
    f_equal. apply Hrep. exists r. split; [reflexivity | exact Hcode].
Qed.

Lemma strict_report_passes (name : string) (expected : Z)
      (result : option login_response) :
  fst (handled (strict_report name expected result)) = true
  <-> exists r, result = Some r /\ status_code r = expected.
Proof.
  unfold strict_report. destruct result as [r|].
  - destruct (Z.eqb_spec (status_code r) expected) as [E|NE];
      cbn [handled fst].
    + split; [intros _; exists r; split; [reflexivity | exact E]
             | reflexivity].
    + split; [discriminate|].
      intros (r' & Hr & Hc). apply Some_inj in Hr. subst r'. contradiction.
  - cbn [handled fst]. split; [discriminate|].
    intros (r & Hr & _). discriminate.
Qed.

Lemma lenient_report_passes (name expected_text : string) (expected : Z)
      (result : option login_response) :
  fst (handled (lenient_report name expected_text expected result)) = true
  <-> exists r, result = Some r /\ status_code r = expected.
Proof.
  unfold lenient_report. destruct result as [r|].
  - destruct (Z.eqb_spec (status_code r) expected) as [E|NE];
      cbn [handled fst].
    + split; [intros _; exists r; split; [reflexivity | exact E]
             | reflexivity].
    + split; [discriminate|].
      intros (r' & Hr & Hc). apply Some_inj in Hr. subst r'. contradiction.
  - cbn [handled fst]. split; [discriminate|].
    intros (r & Hr & _). discriminate.
Qed.

(** X10. Each scenario function returns a passing verdict exactly when
    connect, send and receive succeed and the bytes read, at most 48 of
    them (1024 for the successful login), decode to a result whose status
    code is the one the scenario expects. *)
Theorem scenario_passes_iff :
  passes_iff test_successful_login isid_successful_login
             params_successful_login 1024 0x0000
  /\ passes_iff test_target_not_found isid_target_not_found
                params_target_not_found 48 0x0203
  /\ passes_iff test_missing_parameter isid_missing_parameter
                params_missing_parameter 48 0x0207.
Proof.
  split; [|split].
  - exact (behaves_passes_iff _ _ _ _ _ _ _ test_successful_login_behaves
             (lenient_report_passes _ _ _)).
  - exact (behaves_passes_iff _ _ _ _ _ _ _ test_target_not_found_behaves
             (strict_report_passes _ _)).
  - exact (behaves_passes_iff _ _ _ _ _ _ _ test_missing_parameter_behaves
             (strict_report_passes _ _)).
Qed.

(** X11. The socket calls of a scenario function, in every world: the
    socket is created, its timeout set to 5, and connect called; the
    request is sent only if connect succeeded, and that once; one read is
    made only if the send succeeded; the close comes last in every
    case. *)
Theorem scenario_socket_calls :
  makes_calls test_successful_login isid_successful_login
              params_successful_login 1024
  /\ makes_calls test_target_not_found isid_target_not_found
                 params_target_not_found 48
  /\ makes_calls test_missing_parameter isid_missing_parameter
                 params_missing_parameter 48.
Proof.
  split; [|split].
  - exact (behaves_events _ _ _ _ _ _ test_successful_login_behaves).
  - exact (behaves_events _ _ _ _ _ _ test_target_not_found_behaves).
  - exact (behaves_events _ _ _ _ _ _ test_missing_parameter_behaves).
Qed.

Lemma strict_fails_by_exception (test : str -> Z -> M bool)
      (banner name : string) (isid : bytes) (params : str) (bufsize : nat)
      (expected : Z) :
  behaves test banner isid params bufsize (strict_report name expected) ->
  fails_by_exception_only test banner name expected.
Proof.
  intros Hb host port w.
  rewrite (behaves_fst _ _ _ _ _ _ host port w Hb).
  rewrite (behaves_stdout _ _ _ _ _ _ host port w Hb).
  destruct (progress_of (peers w (next_fd w)) host port
                        (request isid params) bufsize)
    as [f|f|f|data]; cbn [summary fst snd];
    try (eexists; split; [reflexivity|]; right;
         split; [reflexivity | eexists; reflexivity]).
  unfold strict_report.
  destruct (parsed data) as [r|].
  - destruct (Z.eqb_spec (status_code r) expected) as [E|NE];
      cbn [handled fst snd app].
    + eexists. split; [reflexivity|]. left.
      split; [reflexivity | rewrite E; reflexivity].
    + eexists. split; [reflexivity|]. right.
      split; [reflexivity | eexists; reflexivity].
  - cbn [handled fst snd app].
    eexists. split; [reflexivity|]. right.
    split; [reflexivity | eexists; reflexivity].
Qed.

(** X12. [test_target_not_found] and [test_missing_parameter] print two
    lines in every world: the banner, and then either the pass line or the
    line of the [except] clause with the text of an exception.  Their line
    with the expected and the received code is never printed: a reply with
    another status code, like a reply that does not parse, ends in the
    [except] clause. *)
Theorem strict_scenarios_fail_by_exception_only :
  fails_by_exception_only test_target_not_found
    "Test 1: TARGET_NOT_FOUND (0x0203)..." "TARGET_NOT_FOUND" 0x0203
  /\ fails_by_exception_only test_missing_parameter
       "Test 2: MISSING_PARAMETER (0x0207)..." "MISSING_PARAMETER" 0x0207.
Proof.
  split.
  - exact (strict_fails_by_exception _ _ _ _ _ _ _
             test_target_not_found_behaves).
  - exact (strict_fails_by_exception _ _ _ _ _ _ _
             test_missing_parameter_behaves).
Qed.

(** X13. [test_successful_login] prints two lines in every world: the
    banner, and then the line of the [except] clause, with the text of the
    exception, if a socket call raised; the pass line if the reply decodes
    to status 0; and otherwise the line with the expected and the received
    code, the received code being 0 for a reply that does not parse. *)
Theorem successful_login_report (host : str) (port : Z) (w : world) :
  exists l,
    stdout (snd (test_successful_login host port w))
    = stdout w ++ [line_test "Test 3: SUCCESS (0x0000)..."; l]
    /\ match progress_successful_login w host port (next_fd w) with
       | connect_failed f | sendall_failed f | recv_failed f =>
           l = line_fail_exn (snd f)
           /\ fst (test_successful_login host port w) = Ok false
       | replied data =>
           match parse_login_response data with
           | Ok (Some r) =>
               if status_code r =? 0
               then l = line_pass "SUCCESS" (hex04 0)
                    /\ fst (test_successful_login host port w) = Ok true
               else l = line_fail_expected "0x0000" (hex04 (status_code r))
                    /\ fst (test_successful_login host port w) = Ok false
           | _ =>
               l = line_fail_expected "0x0000" (hex04 0)
               /\ fst (test_successful_login host port w) = Ok false
           end
       end.
Proof.
  rewrite (behaves_fst _ _ _ _ _ _ host port w test_successful_login_behaves).
  rewrite (behaves_stdout _ _ _ _ _ _ host port w
             test_successful_login_behaves).
  unfold progress_successful_login.
  destruct (progress_of (peers w (next_fd w)) host port
                        (request isid_successful_login
                                 params_successful_login) 1024)
    as [f|f|f|data]; cbn [summary fst snd];
    try (eexists; split; [reflexivity|]; split; reflexivity).
  unfold parsed, lenient_report.
  destruct (parse_login_response_returns data) as [result Hparse].
  rewrite Hparse.
  destruct result as [r|].
  - destruct (Z.eqb_spec (status_code r) 0) as [E|NE];
      cbn [handled fst snd app].
    + eexists. split; [reflexivity|].
      split; [rewrite E; reflexivity | reflexivity].
    + eexists. split; [reflexivity|]. split; reflexivity.
  - cbn [handled fst snd app].
    eexists. split; [reflexivity|]. split; reflexivity.
Qed.

End ScenarioProperties.

(** ** Properties of [main] *)

Section MainProperties.

Variable int : str -> result Z.

Local Open Scope run_scope.

(** X14. With an argument count other than 3, [main] prints the two usage
    lines with the program's name and exits with status 1: no socket is
    created and the port is not looked at. *)
Theorem main_usage_error (argv : list str) (w : world) :
  argv <> [] -> length argv <> 3%nat ->
  exists wf,
    main int argv w = (Raise (SystemExit 1), wf)
    /\ exit_status (fst (main int argv w)) = 1
    /\ events wf = events w
    /\ open_fds wf = open_fds w
    /\ next_fd wf = next_fd w
    /\ stdout wf
       = stdout w ++ [line_usage (nth 0 argv []); line_example (nth 0 argv [])].
Proof.
  intros _ Hlen. unfold main.
  destruct (Nat.eqb_spec (length argv) 3) as [E|_]; [contradiction|].
  cbn [negb]. unfold bind, print, sys_exit.
  eexists. split; [reflexivity|].
  cbn [fst exit_status peers next_fd open_fds events stdout].
  rewrite <- app_assoc. repeat split.
Qed.

(** X15. With three arguments and a port that [int] refuses, the
    exception of [int] leaves [main] before anything is printed and before
    any socket is created; the exit status is then 1. *)
Theorem main_bad_port (argv : list str) (w : world) (e : exn) :
  length argv = 3%nat ->
  int (nth 2 argv []) = Raise e ->
  main int argv w = (Raise e, w)
  /\ (is_Exception e = true -> exit_status (fst (main int argv w)) = 1).
Proof.
  intros Hlen Hint. unfold main. rewrite Hlen. cbn [Nat.eqb negb].
  unfold bind at 1. unfold lift at 1. rewrite Hint.
  split; [reflexivity|].
  intros He. cbn [fst]. destruct e; [reflexivity | discriminate He].
Qed.

(** X16. The exit status is 0 or 1, whatever the arguments and whatever
    the endpoint does, [int] raising nothing but instances of
    [Exception]. *)
Theorem main_exit_status_0_or_1 (argv : list str) (w : world) :
  argv <> [] ->
  (forall s e, int s = Raise e -> is_Exception e = true) ->
  exit_status (fst (main int argv w)) = 0
  \/ exit_status (fst (main int argv w)) = 1.
Proof.
  intros _ Hint.
  destruct (Nat.eq_dec (length argv) 3) as [E|NE].
  - destruct argv as [|prog [|host [|portstr [|x argv]]]];
      try discriminate E.
    destruct (int portstr) as [port|e] eqn:Hp.
    + destruct (main_outcome int prog host portstr port w Hp)
        as (wf & Hmain & _).
      rewrite Hmain. cbn [fst exit_status].
      match goal with |- context [if ?b then _ else _] => destruct b end;
        [left | right]; reflexivity.
    + right. unfold main. cbn [length Nat.eqb negb nth].
      unfold bind at 1. unfold lift at 1. rewrite Hp.
      cbn [fst]. pose proof (Hint _ _ Hp) as He.
      destruct e; [reflexivity | discriminate He].
  - right. unfold main.
    destruct (Nat.eqb_spec (length argv) 3) as [E|_]; [contradiction|].
    reflexivity.
Qed.

(** X17. When the target cannot be reached, every connect raising, no
    request is sent and nothing is read: each scenario creates its socket,
    sets the timeout, tries to connect and closes; the three verdicts are
    failing, each reported with the text of its exception, the summary
    counts 0 of 3, and the exit status is 1. *)
Theorem main_unreachable_target
        (prog host portstr : str) (port : Z) (w : world) (f1 f2 f3 : failure) :
  int portstr = Ok port ->
  connect_outcome (peers w (next_fd w)) host port = Some f1 ->
  connect_outcome (peers w (S (next_fd w))) host port = Some f2 ->
  connect_outcome (peers w (S (S (next_fd w)))) host port = Some f3 ->
  exit_status (fst (main int [prog; host; portstr] w)) = 1
  /\ events_since w (snd (main int [prog; host; portstr] w))
     = [ev_socket (next_fd w); ev_settimeout (next_fd w) 5;
        ev_connect (next_fd w) host port; ev_close (next_fd w);
        ev_socket (S (next_fd w)); ev_settimeout (S (next_fd w)) 5;
        ev_connect (S (next_fd w)) host port; ev_close (S (next_fd w));
        ev_socket (S (S (next_fd w))); ev_settimeout (S (S (next_fd w))) 5;
        ev_connect (S (S (next_fd w))) host port;
        ev_close (S (S (next_fd w)))]
  /\ stdout (snd (main int [prog; host; portstr] w))
     = stdout w
         ++ [line_rule; line_title; line_rule; line_target host port;
             line_blank;
             line_test "Test 3: SUCCESS (0x0000)...";
             line_fail_exn (snd f1);
             line_test "Test 1: TARGET_NOT_FOUND (0x0203)...";
             line_fail_exn (snd f2);
             line_test "Test 2: MISSING_PARAMETER (0x0207)...";
             line_fail_exn (snd f3);
             line_blank; line_rule; line_results 0 3; line_rule].
Proof.
  intros Hp H1 H2 H3.
  destruct (main_outcome int prog host portstr port w Hp)
    as (wf & Hmain & _ & Hev & Hout).
  rewrite Hmain. cbn [fst snd].
  unfold progress_successful_login, progress_target_not_found,
    progress_missing_parameter, progress_of in *.
  rewrite H1, H2, H3 in *.
  cbn [summary fst snd all forallb andb exit_status] in *.
  split; [reflexivity|].
  split.
  - unfold events_since. rewrite Hev.
    rewrite skipn_app, Nat.sub_diag, skipn_all. reflexivity.
  - rewrite Hout. reflexivity.
Qed.

(** X18. Against a target that answers the three scenarios, in the order
    [main] runs them, with status 0x0000, 0x0203 and 0x0207, the three
    pass lines are printed, the summary counts 3 of 3 and the exit status
    is 0. *)
Theorem main_conforming_target
        (prog host portstr : str) (port : Z) (w : world)
        (d1 d2 d3 : bytes) (r1 r2 r3 : login_response) :
  int portstr = Ok port ->
  progress_successful_login w host port (next_fd w) = replied d3 ->
  parse_login_response d3 = Ok (Some r3) -> status_code r3 = 0x0000 ->
  progress_target_not_found w host port (S (next_fd w)) = replied d1 ->
  parse_login_response d1 = Ok (Some r1) -> status_code r1 = 0x0203 ->
  progress_missing_parameter w host port (S (S (next_fd w))) = replied d2 ->
  parse_login_response d2 = Ok (Some r2) -> status_code r2 = 0x0207 ->
  exit_status (fst (main int [prog; host; portstr] w)) = 0
  /\ stdout (snd (main int [prog; host; portstr] w))
     = stdout w
         ++ [line_rule; line_title; line_rule; line_target host port;
             line_blank;
             line_test "Test 3: SUCCESS (0x0000)...";
             line_pass "SUCCESS" (hex04 0x0000);
             line_test "Test 1: TARGET_NOT_FOUND (0x0203)...";
             line_pass "TARGET_NOT_FOUND" (hex04 0x0203);
             line_test "Test 2: MISSING_PARAMETER (0x0207)...";
             line_pass "MISSING_PARAMETER" (hex04 0x0207);
             line_blank; line_rule; line_results 3 3; line_rule].
Proof.
  intros Hp P3 D3 C3 P1 D1 C1 P2 D2 C2.
  destruct (main_outcome int prog host portstr port w Hp)
    as (wf & Hmain & _ & _ & Hout).
  rewrite Hmain. cbn [fst snd].
  rewrite P1, P2, P3 in *.
  unfold report_successful_login, report_target_not_found,
    report_missing_parameter, lenient_report, strict_report, summary,
    parsed in *.
  rewrite D1, D2, D3 in *. rewrite C1, C2, C3 in *.
  cbn [Z.eqb Pos.eqb handled fst snd all forallb andb exit_status] in *.
  split; [reflexivity|].
  rewrite Hout. reflexivity.
Qed.

End MainProperties.

Section MainWitnesses.

Lemma main_usage_error_witness :
  exists wf,
    main (fun _ => Ok 3260) [lit "probe"; lit "127.0.0.1"] (initial silent)
    = (Raise (SystemExit 1), wf)
    /\ exit_status
         (fst (main (fun _ => Ok 3260) [lit "probe"; lit "127.0.0.1"]
                    (initial silent))) = 1
    /\ events wf = events (initial silent)
    /\ open_fds wf = open_fds (initial silent)
    /\ next_fd wf = next_fd (initial silent)
    /\ stdout wf
       = stdout (initial silent)
           ++ [line_usage (nth 0 [lit "probe"; lit "127.0.0.1"] []);
               line_example (nth 0 [lit "probe"; lit "127.0.0.1"] [])].
Proof.
  apply main_usage_error; [discriminate | cbn; lia].
Defined.

Lemma main_bad_port_witness :
  main (fun _ => Raise (Exception ValueError "invalid literal for int()"))
       [lit "probe"; lit "127.0.0.1"; lit "port"] (initial silent)
  = (Raise (Exception ValueError "invalid literal for int()"),
     initial silent)
  /\ (is_Exception (Exception ValueError "invalid literal for int()") = true ->
      exit_status
        (fst (main (fun _ =>
                      Raise (Exception ValueError "invalid literal for int()"))
                   [lit "probe"; lit "127.0.0.1"; lit "port"]
                   (initial silent))) = 1).
Proof.
  apply main_bad_port; reflexivity.
Defined.

Lemma main_exit_status_0_or_1_witness :
  exit_status
    (fst (main (fun _ => Ok 3260)
               [lit "probe"; lit "127.0.0.1"; lit "3260"] conforming)) = 0
  \/ exit_status
       (fst (main (fun _ => Ok 3260)
                  [lit "probe"; lit "127.0.0.1"; lit "3260"] conforming)) = 1.
Proof.
  apply main_exit_status_0_or_1; [discriminate|].
  intros s e H. discriminate H.
Defined.

Lemma main_unreachable_target_witness :
  exit_status
    (fst (main (fun _ => Ok 3260)
               [lit "probe"; lit "127.0.0.1"; lit "3260"]
               (initial refusing))) = 1
  /\ events_since (initial refusing)
       (snd (main (fun _ => Ok 3260)
                  [lit "probe"; lit "127.0.0.1"; lit "3260"]
                  (initial refusing)))
     = [ev_socket 0; ev_settimeout 0 5;
        ev_connect 0 (lit "127.0.0.1") 3260; ev_close 0;
        ev_socket 1; ev_settimeout 1 5;
        ev_connect 1 (lit "127.0.0.1") 3260; ev_close 1;
        ev_socket 2; ev_settimeout 2 5;
        ev_connect 2 (lit "127.0.0.1") 3260; ev_close 2]
  /\ stdout (snd (main (fun _ => Ok 3260)
                       [lit "probe"; lit "127.0.0.1"; lit "3260"]
                       (initial refusing)))
     = stdout (initial refusing)
         ++ [line_rule; line_title; line_rule;
             line_target (lit "127.0.0.1") 3260; line_blank;
             line_test "Test 3: SUCCESS (0x0000)...";
             line_fail_exn "[Errno 111] Connection refused";
             line_test "Test 1: TARGET_NOT_FOUND (0x0203)...";
             line_fail_exn "[Errno 111] Connection refused";
             line_test "Test 2: MISSING_PARAMETER (0x0207)...";
             line_fail_exn "[Errno 111] Connection refused";
             line_blank; line_rule; line_results 0 3; line_rule].
Proof.
  apply (main_unreachable_target (fun _ => Ok 3260) (lit "probe")
           (lit "127.0.0.1") (lit "3260") 3260 (initial refusing)
           (ConnectionRefusedError, "[Errno 111] Connection refused"%string)
           (ConnectionRefusedError, "[Errno 111] Connection refused"%string)
           (ConnectionRefusedError, "[Errno 111] Connection refused"%string));
    reflexivity.
Defined.

Lemma main_conforming_target_witness :
  exit_status
    (fst (main (fun _ => Ok 3260)
               [lit "probe"; lit "127.0.0.1"; lit "3260"] conforming)) = 0
  /\ stdout (snd (main (fun _ => Ok 3260)
                       [lit "probe"; lit "127.0.0.1"; lit "3260"]
                       conforming))
     = stdout conforming
         ++ [line_rule; line_title; line_rule;
             line_target (lit "127.0.0.1") 3260; line_blank;
             line_test "Test 3: SUCCESS (0x0000)...";
             line_pass "SUCCESS" (hex04 0x0000);
             line_test "Test 1: TARGET_NOT_FOUND (0x0203)...";
             line_pass "TARGET_NOT_FOUND" (hex04 0x0203);
             line_test "Test 2: MISSING_PARAMETER (0x0207)...";
             line_pass "MISSING_PARAMETER" (hex04 0x0207);
             line_blank; line_rule; line_results 3 3; line_rule].
Proof.
  apply (main_conforming_target (fun _ => Ok 3260) (lit "probe")
           (lit "127.0.0.1") (lit "3260") 3260 conforming
           (login_response_bytes x02 x03) (login_response_bytes x02 x07)
           (login_response_bytes x00 x00)
           {| opcode := 0x23; status_class := 2; status_detail := 3;
              status_code := 0x0203 |}
           {| opcode := 0x23; status_class := 2; status_detail := 7;
              status_code := 0x0207 |}
           {| opcode := 0x23; status_class := 0; status_detail := 0;
              status_code := 0 |});
    vm_compute; reflexivity.
Defined.

End MainWitnesses.
